(** * Smart order router: request layer of [pages/api/smartrouter/index.ts]

    The development embeds the API route of the smart order router
    ([handleError], [validateParams] and the default [handler]) together with
    the JavaScript value semantics these functions rely on (truthiness, [??],
    [||], loose inequality against a string literal, property reads), and
    states the properties of the request layer over that embedding.

    The route computation itself ([getRoute], imported from [./quote]) is not
    part of the sources at hand: the handler takes it as a parameter, and the
    module [RoutingCore] models its contract as the design document states
    it. The response object is a parameter as well: its sends can fail. *)

From stdpp Require Import gmap strings list numbers.
From Stdlib Require Import ZArith Ascii DecimalString QArith Qcanon.

Set Warnings "-register-all".
#[local] Open Scope Z_scope.

(** ** JavaScript values *)

(** A JavaScript number, identified by the decimal literal that
    [Number::toString] prints for it: NaN, the infinities, the two zeros, and
    [(-1)^neg * digits * 10^exp10] otherwise. *)
Inductive JsNumber :=
  | NNaN
  | NInfinity (neg : bool)
  | NZero (neg : bool)
  | NFinite (neg : bool) (digits : positive) (exp10 : Z).

(** Values as the handler receives them: a decoded JSON body, the query
    object (strings and arrays of strings), and [undefined] for what is
    absent. *)
Inductive JsValue :=
  | JUndefined
  | JNull
  | JBool (b : bool)
  | JNum (n : JsNumber)
  | JStr (s : string)
  | JArr (l : list JsValue)
  | JObj (m : gmap string JsValue).

#[global] Instance JsNumber_eq_dec : EqDecision JsNumber.
Proof. solve_decision. Defined.

Definition num_of_Z (z : Z) : JsNumber :=
  match z with
  | Z0 => NZero false
  | Zpos p => NFinite false p 0
  | Zneg p => NFinite true p 0
  end.

Definition JInt (z : Z) : JsValue := JNum (num_of_Z z).

(** [x < 0] and [x > 0] on numbers. *)
Definition num_negative (n : JsNumber) : bool :=
  match n with
  | NInfinity neg | NFinite neg _ _ => neg
  | NNaN | NZero _ => false
  end.

Definition num_positive (n : JsNumber) : bool :=
  match n with
  | NInfinity neg | NFinite neg _ _ => negb neg
  | NNaN | NZero _ => false
  end.

(** ToBoolean. *)
Definition truthy (v : JsValue) : bool :=
  match v with
  | JUndefined | JNull => false
  | JBool b => b
  | JNum NNaN | JNum (NZero _) => false
  | JNum _ => true
  | JStr s => negb (String.eqb s "")
  | JArr _ | JObj _ => true
  end.

(** [a ?? b] and [a || b]. *)
Definition nullish (a b : JsValue) : JsValue :=
  match a with
  | JUndefined | JNull => b
  | _ => a
  end.

Definition js_or (a b : JsValue) : JsValue := if truthy a then a else b.

(** [v.name], for a receiver that is neither [undefined] nor [null] (every
    read below happens after a truthiness test of its receiver) and a name
    that no prototype defines (chainId, amount, token0, token1, walletAddress,
    slippage, tradeType, deadline, address, decimals, debug): an own property
    of an object, [undefined] on anything else. *)
Definition get (v : JsValue) (name : string) : JsValue :=
  match v with
  | JObj m => default JUndefined (m !! name)
  | _ => JUndefined
  end.

(** *** Number::toString and ToString *)

Fixpoint strip_trailing_zeros (l : list Ascii.ascii) : list Ascii.ascii :=
  match l with
  | [] => []
  | c :: r =>
      match strip_trailing_zeros r with
      | [] => if Ascii.eqb c "0"%char then [] else [c]
      | r' => c :: r'
      end
  end.

Definition digits_of (p : positive) : string :=
  NilEmpty.string_of_uint (Pos.to_uint p).

Definition zeros (n : Z) : string :=
  String.string_of_list_ascii (repeat "0"%char (Z.to_nat n)).

Definition slice (from len : Z) (s : string) : string :=
  String.substring (Z.to_nat from) (Z.to_nat len) s.

(** ECMA-262 Number::toString, radix 10, on [s * 10^(n-k)] where [s] has [k]
    digits and does not end in 0. *)
Definition Number_toString_finite (digits : positive) (exp10 : Z) : string :=
  let all := digits_of digits in
  let s := String.string_of_list_ascii (strip_trailing_zeros (String.list_ascii_of_string all)) in
  let k := Z.of_nat (String.length s) in
  let n := exp10 + Z.of_nat (String.length all) in
  if (k <=? n) && (n <=? 21) then s +:+ zeros (n - k)
  else if (0 <? n) && (n <=? 21) then slice 0 n s +:+ "." +:+ slice n (k - n) s
  else if (-6 <? n) && (n <=? 0) then "0." +:+ zeros (- n) +:+ s
  else
    let e := n - 1 in
    let mantissa := if k =? 1 then s else slice 0 1 s +:+ "." +:+ slice 1 (k - 1) s in
    mantissa +:+ "e" +:+ (if e <? 0 then "-" else "+")
             +:+ match e with Z0 => "0" | Zpos p | Zneg p => digits_of p end.

Definition Number_toString (n : JsNumber) : string :=
  match n with
  | NNaN => "NaN"
  | NInfinity neg => if neg then "-Infinity" else "Infinity"
  | NZero _ => "0"
  | NFinite neg d e =>
      (if neg then "-" else "") +:+ Number_toString_finite d e
  end.

(** ToString. Arrays print through [Array.prototype.join] (holes of
    [undefined] and [null] print empty); an object prints through
    [Object.prototype.toString] unless an own [toString] entry (never callable
    in decoded JSON) shadows it, and then the conversion raises a TypeError,
    here [None]. *)
Fixpoint ToString (v : JsValue) : option string :=
  match v with
  | JUndefined => Some "undefined"
  | JNull => Some "null"
  | JBool b => Some (if b then "true" else "false")
  | JNum n => Some (Number_toString n)
  | JStr s => Some s
  | JArr l =>
      (fix join (l : list JsValue) : option string :=
         match l with
         | [] => Some ""
         | x :: r =>
             let elem := match x with
                         | JUndefined | JNull => Some ""
                         | _ => ToString x
                         end in
             match elem, r with
             | None, _ => None
             | Some s, [] => Some s
             | Some s, _ =>
                 match join r with
                 | Some t => Some (s +:+ "," +:+ t)
                 | None => None
                 end
             end
         end) l
  | JObj m =>
      match m !! "toString" with
      | Some _ => None
      | None => Some "[object Object]"
      end
  end.

(** [v == lit] for a string literal [lit] that is not a numeric literal (the
    handler compares with 'exactIn' and 'exactOut' only): [undefined] and
    [null] equal nothing but each other, a number or a boolean is compared
    with ToNumber(lit) = NaN, an object is converted to a primitive first.
    [None] is the TypeError of that conversion. *)
Definition loose_eq_string (v : JsValue) (lit : string) : option bool :=
  match v with
  | JUndefined | JNull => Some false
  | JBool _ | JNum _ => Some false
  | JStr s => Some (String.eqb s lit)
  | JArr _ | JObj _ =>
      match ToString v with
      | Some s => Some (String.eqb s lit)
      | None => None
      end
  end.

(** [v === lit] for a string literal. *)
Definition strict_eq_string (v : JsValue) (lit : string) : bool :=
  match v with
  | JStr s => String.eqb s lit
  | _ => false
  end.

(** ** Thrown values and completions *)

Record ErrorObj := mkError {
  err_message : JsValue;
  err_status : JsValue;
  err_code : JsValue;
  err_stack : JsValue;
  err_cause : JsValue
}.

(** What a [throw] carries: an instance of [Error] or any other value. *)
Inductive Thrown :=
  | ErrorInstance (e : ErrorObj)
  | NonError (v : JsValue).

(** [new Error(msg)]: no status, no code, no cause; the stack starts with the
    header line (its frames are not modelled). *)
Definition new_Error_named (name msg : string) : ErrorObj :=
  {| err_message := JStr msg;
     err_status := JUndefined;
     err_code := JUndefined;
     err_stack := JStr (name +:+ ": " +:+ msg);
     err_cause := JUndefined |}.

Definition new_Error (msg : string) : Thrown :=
  ErrorInstance (new_Error_named "Error" msg).

Definition new_TypeError (msg : string) : Thrown :=
  ErrorInstance (new_Error_named "TypeError" msg).

Inductive Completion (A : Type) :=
  | Return (a : A)
  | Throw (e : Thrown).
Arguments Return {A} a.
Arguments Throw {A} e.

(** ** validateParams *)

Record ParamsOptions := mkParams {
  chainId : JsValue;
  amount : JsValue;
  walletAddress : JsValue;
  slippage : JsValue;
  token0 : JsValue;
  token1 : JsValue;
  tradeType : JsValue;
  deadline : JsValue
}.

Record NextApiRequest := mkRequest {
  req_method : option string;
  req_query : gmap string JsValue;
  req_body : JsValue;
  req_headers : gmap string JsValue
}.

Inductive Method := Mget | Mpost.

Definition msg_params_empty : string := "params cannot be empty".
Definition msg_required_empty : string :=
  "params[chainId,amountIn,token0,token1,walletAddress,slippage] cannot be empty".
Definition msg_token_empty : string := "token(addrss,decimals) cannot be empty".
Definition msg_tradeType : string := "tradeType type fix (exactIn | exactOut)".
Definition msg_to_primitive : string := "Cannot convert object to primitive value".

(** [method === 'get' ? req.query : (req.body ?? {})] *)
Definition paramsObj_of (req : NextApiRequest) (method : Method) : JsValue :=
  match method with
  | Mget => JObj (req_query req)
  | Mpost => nullish (req_body req) (JObj ∅)
  end.

(** The first guard: one of the seven required entries is falsy. *)
Definition required_missing (paramsObj : JsValue) : bool :=
  negb (truthy (get paramsObj "chainId"))
  || negb (truthy (get paramsObj "amount"))
  || negb (truthy (get paramsObj "token0"))
  || negb (truthy (get paramsObj "token1"))
  || negb (truthy (get paramsObj "walletAddress"))
  || negb (truthy (get paramsObj "slippage"))
  || negb (truthy (get paramsObj "tradeType")).

(** The second guard: a token without truthy address or decimals. *)
Definition token_missing (paramsObj : JsValue) : bool :=
  negb (truthy (get (get paramsObj "token0") "address"))
  || negb (truthy (get (get paramsObj "token0") "decimals"))
  || negb (truthy (get (get paramsObj "token1") "address"))
  || negb (truthy (get (get paramsObj "token1") "decimals")).

(** The object literal returned at the end. *)
Definition params_of (paramsObj : JsValue) : ParamsOptions :=
  {| chainId := get paramsObj "chainId";
     amount := get paramsObj "amount";
     walletAddress := get paramsObj "walletAddress";
     slippage := get paramsObj "slippage";
     token0 := get paramsObj "token0";
     token1 := get paramsObj "token1";
     tradeType := get paramsObj "tradeType";
     deadline := get paramsObj "deadline" |}.

(** The third guard,
    [tradeType != 'exactIn' && tradeType != 'exactOut'], evaluated left to
    right with its short circuit. *)
Definition tradeType_rejected (t : JsValue) : Completion bool :=
  match loose_eq_string t "exactIn" with
  | None => Throw (new_TypeError msg_to_primitive)
  | Some true => Return false
  | Some false =>
      match loose_eq_string t "exactOut" with
      | None => Throw (new_TypeError msg_to_primitive)
      | Some true => Return false
      | Some false => Return true
      end
  end.

Definition validateParams (req : NextApiRequest) (method : Method)
  : Completion ParamsOptions :=
  let paramsObj := paramsObj_of req method in
  if negb (truthy paramsObj) then Throw (new_Error msg_params_empty)
  else if required_missing paramsObj then Throw (new_Error msg_required_empty)
  else if token_missing paramsObj then Throw (new_Error msg_token_empty)
  else
    match tradeType_rejected (get paramsObj "tradeType") with
    | Throw e => Throw e
    | Return true => Throw (new_Error msg_tradeType)
    | Return false => Return (params_of paramsObj)
    end.

(** ** The handler's effects

    What the handler does to the response object and which collaborators it
    calls is recorded as a trace, in program order. *)
Inductive Event :=
  | EvSetHeader (name value : string)   (* res.setHeader(name, value) *)
  | EvStatus (code : JsValue)           (* res.status(code) *)
  | EvJson (body : JsValue)             (* .json(body) *)
  | EvEnd                               (* .end() *)
  | EvValidateParams (method : Method)  (* validateParams(req, method) *)
  | EvGetRoute (params : ParamsOptions) (* getRoute(params) *).

(** A computation emits events and completes normally or abruptly. *)
Definition Eff (A : Type) : Type := list Event * Completion A.

Definition eff_ret {A} (a : A) : Eff A := ([], Return a).

Definition eff_bind {A B} (m : Eff A) (k : A -> Eff B) : Eff B :=
  match m with
  | (tr, Throw e) => (tr, Throw e)
  | (tr, Return a) => let '(tr', c) := k a in (tr ++ tr', c)
  end.

Definition emit (ev : Event) : Eff unit := ([ev], Return tt).

Definition lift {A} (c : Completion A) : Eff A := ([], c).

(** [try { body } catch (error) { handler(error) }] *)
Definition try_catch (body : Eff unit) (handler : Thrown -> Eff unit) : Eff unit :=
  match body with
  | (tr, Return tt) => (tr, Return tt)
  | (tr, Throw e) => let '(tr', c) := handler e in (tr ++ tr', c)
  end.

Declare Scope eff_scope.
Delimit Scope eff_scope with eff.
Notation "x <- m ;; k" := (eff_bind m (fun x => k))
  (at level 100, m at next level, right associativity) : eff_scope.
Notation "m ;;; k" := (eff_bind m (fun _ => k))
  (at level 100, right associativity) : eff_scope.

(** [process.env], as far as the route reads it. *)
Record ProcessEnv := mkEnv {
  NODE_ENV : option string;
  NEXT_PUBLIC_ALLOWED_ORIGIN : option string
}.

Definition env_value (o : option string) : JsValue :=
  match o with
  | Some s => JStr s
  | None => JUndefined
  end.

Definition msg_internal : string := "Server internal error".

(** ** The response object

    [res.status(code)] stores the code and [.json(body)] or [.end()] sends:
    the send goes through Node's [writeHead], which throws a RangeError
    (ERR_HTTP_INVALID_STATUS_CODE) unless [code | 0] lies in 100..999.
    [send_error code] is what the send throws under [code], if anything.
    That is the response's matter (how a code that is not a number is
    coerced, whether the request is a conditional one that is answered 304
    before [writeHead] sees the code), except that an integer code in
    100..999 is never refused. *)
Record NextApiResponse := mkResponse {
  send_error : JsValue -> option Thrown;
  send_error_valid : forall code : Z,
    100 <= code <= 999 -> send_error (JInt code) = None
}.

(** The outcome of the send that follows [res.status(code)]. *)
Definition sending (res : NextApiResponse) (code : JsValue) : Eff unit :=
  lift (match send_error res code with
        | Some refusal => Throw refusal
        | None => Return tt
        end).

(** [res.status(code).json(body)] and [res.status(code).end()]: both calls
    are made, the second one sends. *)
Definition send_json (res : NextApiResponse) (code body : JsValue) : Eff unit :=
  (emit (EvStatus code) ;;; emit (EvJson body) ;;; sending res code)%eff.

Definition send_end (res : NextApiResponse) (code : JsValue) : Eff unit :=
  (emit (EvStatus code) ;;; emit EvEnd ;;; sending res code)%eff.

(** ** handleError *)

Definition handleError (res : NextApiResponse) (env : ProcessEnv) (error : Thrown)
  : Eff unit :=
  match error with
  | ErrorInstance apiError =>
      let status := nullish (err_status apiError) (JInt 500) in
      let code := nullish (err_code apiError) status in
      let payload : gmap string JsValue :=
        {[ "code" := code;
           "message" := js_or (err_message apiError) (JStr msg_internal) ]} in
      let payload :=
        if decide (NODE_ENV env = Some "development")
        then <[ "error" :=
                  js_or (js_or (err_stack apiError) (err_cause apiError)) JUndefined ]>
               payload
        else payload in
      send_json res status (JObj payload)
  | NonError v =>
      let message := match v with JStr _ => v | _ => JStr msg_internal end in
      send_json res (JInt 500) (JObj {[ "code" := JInt 500; "message" := message ]})
  end.

(** ** handler *)

(** [process.env.NEXT_PUBLIC_ALLOWED_ORIGIN || '*'] *)
Definition origin_of (env : ProcessEnv) : string :=
  match NEXT_PUBLIC_ALLOWED_ORIGIN env with
  | Some o => if String.eqb o "" then "*" else o
  | None => "*"
  end.

Section Handler.

(** The response object the handler is called with. *)
Variable res : NextApiResponse.

(** [getRoute] of [./quote]: it resolves to the route data or rejects. *)
Variable getRoute : ParamsOptions -> Completion JsValue.

Definition cors_headers (env : ProcessEnv) : Eff unit :=
  (emit (EvSetHeader "Access-Control-Allow-Credentials" "true") ;;;
   emit (EvSetHeader "Access-Control-Allow-Origin" (origin_of env)) ;;;
   emit (EvSetHeader "Access-Control-Allow-Methods" "GET, POST, PUT, DELETE, OPTIONS") ;;;
   emit (EvSetHeader "Access-Control-Allow-Headers"
           "Content-Type, Authorization, X-Cron-Token"))%eff.

(** [req.method === 'GET' ? 'get' : 'post'] *)
Definition method_of (req : NextApiRequest) : Method :=
  if decide (req_method req = Some "GET") then Mget else Mpost.

(** [typeof req.query.debug === 'string' ? req.query.debug : undefined] *)
Definition debug_of (req : NextApiRequest) : JsValue :=
  match req_query req !! "debug" with
  | Some (JStr s) => JStr s
  | _ => JUndefined
  end.

Definition debug_body (env : ProcessEnv) (req : NextApiRequest) : JsValue :=
  JObj {[ "schedulerToken" := JStr "";
          "environment" := env_value (NODE_ENV env);
          "headers" := JObj (req_headers req) ]}.

Definition success_body (data : JsValue) : JsValue :=
  JObj {[ "code" := JInt 200; "data" := data; "message" := JStr "success" ]}.

Definition handler (env : ProcessEnv) (req : NextApiRequest) : Eff unit :=
  try_catch
    (cors_headers env ;;;
     if decide (req_method req = Some "OPTIONS") then
       send_end res (JInt 204)
     else
       let method := method_of req in
       let debug := debug_of req in
       if strict_eq_string debug "true" then
         send_json res (JInt 200) (debug_body env req)
       else
         params <- (emit (EvValidateParams method) ;;; lift (validateParams req method)) ;;
         data <- (emit (EvGetRoute params) ;;; lift (getRoute params)) ;;
         send_json res (JInt 200) (success_body data))%eff
    (handleError res env).

End Handler.

(** The four CORS headers, set before anything else. *)
Definition cors_trace (env : ProcessEnv) : list Event :=
  [ EvSetHeader "Access-Control-Allow-Credentials" "true";
    EvSetHeader "Access-Control-Allow-Origin" (origin_of env);
    EvSetHeader "Access-Control-Allow-Methods" "GET, POST, PUT, DELETE, OPTIONS";
    EvSetHeader "Access-Control-Allow-Headers" "Content-Type, Authorization, X-Cron-Token" ].

(** What a trace says about the response and the collaborators. *)
Definition is_getRoute (ev : Event) : bool :=
  match ev with EvGetRoute _ => true | _ => false end.

Definition is_validateParams (ev : Event) : bool :=
  match ev with EvValidateParams _ => true | _ => false end.

(** The calls on [res] after the headers: what is sent. *)
Definition response_of (tr : list Event) : list Event :=
  List.filter (fun ev => match ev with
                         | EvStatus _ | EvJson _ | EvEnd => true
                         | _ => false
                         end) tr.

Definition invokes_getRoute (tr : list Event) : bool := existsb is_getRoute tr.
Definition invokes_validateParams (tr : list Event) : bool :=
  existsb is_validateParams tr.

(** ** A response object

    The response to a request that is not conditional, applying
    [writeHead]'s test to the numbers it is given: a number is truncated (for
    a magnitude below 2^31 that is what [| 0] does) and accepted in 100..999.
    Whatever else it is given it refuses; Node coerces such statuses first,
    which [NextApiResponse] leaves open. *)
Module Node.

Definition status_int (code : JsValue) : Z :=
  match code with
  | JNum (NFinite neg digits exp10) =>
      let magnitude :=
        if 0 <=? exp10 then Z.pos digits * 10 ^ exp10
        else Z.pos digits / 10 ^ (- exp10) in
      if neg then - magnitude else magnitude
  | _ => 0
  end.

Definition shown (code : JsValue) : string :=
  match code with
  | JNum n => Number_toString n
  | JStr s => s
  | _ => ""
  end.

(** [new ERR_HTTP_INVALID_STATUS_CODE(code)] *)
Definition invalid_status_code (code : JsValue) : Thrown :=
  ErrorInstance
    {| err_message := JStr ("Invalid status code: " +:+ shown code);
       err_status := JUndefined;
       err_code := JStr "ERR_HTTP_INVALID_STATUS_CODE";
       err_stack :=
         JStr ("RangeError [ERR_HTTP_INVALID_STATUS_CODE]: Invalid status code: "
               +:+ shown code);
       err_cause := JUndefined |}.

Definition refusal (code : JsValue) : option Thrown :=
  if (100 <=? status_int code) && (status_int code <=? 999) then None
  else Some (invalid_status_code code).

Definition response : NextApiResponse.
Proof.
  refine {| send_error := refusal |}.
  intros code Hcode. unfold refusal.
    assert (Hint : status_int (JInt code) = code).
    { destruct code as [|p|p]; simpl; lia. }
    rewrite Hint.
    destruct (Z.leb_spec 100 code); [|lia].
    destruct (Z.leb_spec code 999); [|lia].
    reflexivity.
Defined.

End Node.

(** ** Well-formed parameters, in the words of the design

    The design's section 3 and section 6 describe a well-formed request; the
    predicates below say it over the received values, to be compared with
    what [validateParams] enforces. *)

Definition present (v : JsValue) : bool :=
  match v with
  | JUndefined | JNull => false
  | _ => true
  end.

Definition non_empty_string (v : JsValue) : bool :=
  match v with
  | JStr s => negb (String.eqb s "")
  | _ => false
  end.

Definition positive_number (v : JsValue) : bool :=
  match v with
  | JNum n => num_positive n
  | _ => false
  end.

Definition is_zero_number (v : JsValue) : bool :=
  match v with
  | JNum (NZero _) => true
  | _ => false
  end.

(** [n <= z] for an integer bound [z]. *)
Definition num_le_Z (n : JsNumber) (z : Z) : bool :=
  match n with
  | NNaN => false
  | NInfinity neg => neg
  | NZero _ => 0 <=? z
  | NFinite neg d e =>
      let sd := if neg then Z.neg d else Z.pos d in
      if 0 <=? e then sd * 10 ^ e <=? z else sd <=? z * 10 ^ (- e)
  end.

(** "non-empty address and positive decimals" *)
Definition well_formed_token (t : JsValue) : bool :=
  non_empty_string (get t "address") && positive_number (get t "decimals").

Definition exact_in_or_out (t : JsValue) : bool :=
  strict_eq_string t "exactIn" || strict_eq_string t "exactOut".

(** Section 6: "confirming tradeType is one of exact-in/exact-out, both tokens
    carry non-empty address and positive decimals, chain id and amount are
    present". *)
Definition spec_well_formed (paramsObj : JsValue) : bool :=
  exact_in_or_out (get paramsObj "tradeType")
  && well_formed_token (get paramsObj "token0")
  && well_formed_token (get paramsObj "token1")
  && present (get paramsObj "chainId")
  && present (get paramsObj "amount").

(** Section 3: "slippage tolerance (basis points, 0-10000)". *)
Definition slippage_in_range (v : JsValue) : bool :=
  match v with
  | JNum n => negb (num_negative n) && num_le_Z n 10000
  | _ => false
  end.

(** The required entries of a request, deadline aside, each well-formed: a
    positive chain id and amount, a non-empty wallet address, a slippage in
    range, two well-formed tokens and a trade type. *)
Definition well_formed_required (paramsObj : JsValue) : bool :=
  positive_number (get paramsObj "chainId")
  && positive_number (get paramsObj "amount")
  && non_empty_string (get paramsObj "walletAddress")
  && slippage_in_range (get paramsObj "slippage")
  && well_formed_token (get paramsObj "token0")
  && well_formed_token (get paramsObj "token1")
  && exact_in_or_out (get paramsObj "tradeType").

(** [t == 'exactIn' || t == 'exactOut'], false when the comparison raises. *)
Definition loosely_exact_in_or_out (t : JsValue) : bool :=
  match loose_eq_string t "exactIn" with
  | Some true => true
  | Some false => default false (loose_eq_string t "exactOut")
  | None => false
  end.

(** What [validateParams] enforces, guard by guard: the seven required
    entries and the tokens' address and decimals are truthy, and the trade
    type is loosely equal to 'exactIn' or to 'exactOut'. *)
Definition accepts (paramsObj : JsValue) : bool :=
  truthy (get paramsObj "chainId")
  && truthy (get paramsObj "amount")
  && truthy (get paramsObj "token0")
  && truthy (get paramsObj "token1")
  && truthy (get paramsObj "walletAddress")
  && truthy (get paramsObj "slippage")
  && truthy (get paramsObj "tradeType")
  && truthy (get (get paramsObj "token0") "address")
  && truthy (get (get paramsObj "token0") "decimals")
  && truthy (get (get paramsObj "token1") "address")
  && truthy (get (get paramsObj "token1") "decimals")
  && loosely_exact_in_or_out (get paramsObj "tradeType").

(** ** The routing core, as the design describes it

    [getRoute] lives in [./quote], which is not among the sources: the route
    computation behind it (registry, graph builder, path finder, quote
    simulator, route optimizer, quote aggregator) is missing. The definitions
    of this module follow the design document's component contracts instead.
    The design fixes neither the optimizer's increments and tolerances nor the
    execution model of concentrated-liquidity pools, so the simulation and
    optimization stage is a parameter of the pipeline. *)
Module RoutingCore.

(** Modelled from the spec: for the missing [./quote], the error taxonomy of
    section 7. *)
Inductive RoutingError :=
  | InvalidRequest
  | NoRouteFound
  | InsufficientLiquidity
  | SlippageExceeded
  | DeadlineExceeded
  | RpcFailure
  | InternalComputationError.

(** Modelled from the spec: for the missing [./quote], [Result<Quote,
    RoutingError>] of section 6. *)
Inductive Result (A : Type) :=
  | Ok (a : A)
  | Err (e : RoutingError).
Arguments Ok {A} a.
Arguments Err {A} e.

(** Modelled from the spec: for the missing [./quote], Token of section 3
    (chain identifier, contract address, decimal precision, symbol). *)
Record Token := mkToken {
  token_chain : Z;
  token_address : string;
  token_decimals : Z;
  token_symbol : string
}.

(** Modelled from the spec: for the missing [./quote], "identity = (chain,
    address)". *)
Definition token_id (t : Token) : Z * string := (token_chain t, token_address t).

(** Modelled from the spec: for the missing [./quote], two tokens are equal
    when their identities are, whatever their decimals and symbol. *)
Definition same_token (a b : Token) : bool :=
  bool_decide (token_id a = token_id b).

(** Modelled from the spec: for the missing [./quote], the variant-specific
    state of a Pool (reserves and fee, or active tick, liquidity and fee
    tier). *)
Inductive PoolState :=
  | ConstantProduct (reserve0 reserve1 : Qc) (feeBps : Z)
  | ConcentratedLiquidity (activeTick : Z) (liquidity : Qc) (feeTier : Z).

(** Modelled from the spec: for the missing [./quote], Pool of section 3. *)
Record Pool := mkPool {
  pool_chain : Z;
  pool_token0 : Token;
  pool_token1 : Token;
  pool_state : PoolState
}.

(** Modelled from the spec: for the missing [./quote], Edge, the directed
    projection of a Pool. *)
Record Edge := mkEdge {
  edge_in : Token;
  edge_out : Token;
  edge_pool : Pool
}.

(** Modelled from the spec: for the missing [./quote], Path, an ordered
    sequence of Edges. *)
Definition Path : Type := list Edge.

(** Modelled from the spec: for the missing [./quote], "trade type (exact-in |
    exact-out)". *)
Inductive TradeType := ExactIn | ExactOut.

(** Modelled from the spec: for the missing [./quote], TradeRequest of section
    3. *)
Record TradeRequest := mkTradeRequest {
  rq_chainId : Z;
  rq_inputToken : Token;
  rq_outputToken : Token;
  rq_amount : Qc;
  rq_tradeType : TradeType;
  rq_slippageBps : Z;
  rq_deadline : Z;
  rq_walletAddress : string
}.

(** Modelled from the spec: for the missing [./quote], Split of section 3, a
    Path with its portion of the amount. *)
Record Split := mkSplit {
  split_path : Path;
  split_amount : Qc
}.

(** Modelled from the spec: for the missing [./quote], Route of section 3, the
    Splits with the aggregate realized amount, price impact and execution
    cost. *)
Record Route := mkRoute {
  route_splits : list Split;
  route_realized : Qc;
  route_priceImpactBps : Qc;
  route_cost : Qc
}.

(** Modelled from the spec: for the missing [./quote], Quote of section 3, the
    Route with its worst-case bound. *)
Record Quote := mkQuote {
  quote_route : Route;
  quote_bound : Qc
}.

(** Modelled from the spec: for the missing [./quote], a snapshot is the pools
    known for a chain; the registry's [snapshot(chainId)] hands out the
    current one. *)
Definition PoolSnapshot : Type := list Pool.

(** Modelled from the spec: for the missing [./quote], section 4.2 excludes
    "pools with zero or unusable liquidity (e.g., zero reserve on either
    side)". *)
Definition usable (p : Pool) : bool :=
  match pool_state p with
  | ConstantProduct r0 r1 _ => bool_decide (0 < r0)%Qc && bool_decide (0 < r1)%Qc
  | ConcentratedLiquidity _ l _ => bool_decide (0 < l)%Qc
  end.

(** Modelled from the spec: for the missing [./quote], the Graph of section
    4.2 indexes the edges by their source token; [add_edge] files one edge
    under its source. *)
Definition add_edge (e : Edge) (g : gmap (Z * string) (list Edge))
  : gmap (Z * string) (list Edge) :=
  <[ token_id (edge_in e) := default [] (g !! token_id (edge_in e)) ++ [e] ]> g.

(** Modelled from the spec: for the missing [./quote], a Pool projects to one
    Edge per swap direction. *)
Definition edges_of (p : Pool) : list Edge :=
  [ mkEdge (pool_token0 p) (pool_token1 p) p;
    mkEdge (pool_token1 p) (pool_token0 p) p ].

(** Modelled from the spec: for the missing [./quote], [buildGraph(snapshot,
    inputToken, outputToken)] keeps the pools of the request's chain that have
    usable liquidity. *)
Definition buildGraph (snapshot : PoolSnapshot) (inputToken outputToken : Token)
  : gmap (Z * string) (list Edge) :=
  foldr add_edge ∅
    (flat_map edges_of
       (List.filter
          (fun p => bool_decide (pool_chain p = token_chain inputToken) && usable p)
          snapshot)).

(** Modelled from the spec: for the missing [./quote], the bounded depth-first
    search of section 4.3, "with a visited-token set per branch to prevent
    cycles". *)
Fixpoint search (graph : gmap (Z * string) (list Edge)) (target : Z * string)
    (hops : nat) (visited : gset (Z * string)) (current : Z * string)
  : list Path :=
  match hops with
  | O => []
  | S hops' =>
      flat_map
        (fun e =>
           let next := token_id (edge_out e) in
           if decide (next ∈ visited) then []
           else if decide (next = target) then [[e]]
           else List.map (cons e)
                  (search graph target hops' ({[next]} ∪ visited) next))
        (default [] (graph !! current))
  end.

(** Modelled from the spec: for the missing [./quote], the static ranking of
    section 4.3, here "hop count ascending", the order of discovery breaking
    ties. *)
Fixpoint insert_by_hops (p : Path) (ps : list Path) : list Path :=
  match ps with
  | [] => [p]
  | q :: ps' =>
      if (length p <? length q)%nat then p :: q :: ps'
      else q :: insert_by_hops p ps'
  end.

(** Modelled from the spec: for the missing [./quote], the candidates in
    ranked order. *)
Definition rank (ps : list Path) : list Path := foldr insert_by_hops [] ps.

(** Modelled from the spec: the path finder of the missing route computation,
    [findPaths] of section 4.3, with its edge case "if inputToken equals
    outputToken, fails with InvalidRequest" and its failure "if no path exists
    within the hop bound, fails with NoRouteFound". *)
Definition findPaths (graph : gmap (Z * string) (list Edge))
    (inputToken outputToken : Token) (maxHops maxPaths : nat)
  : Result (list Path) :=
  if same_token inputToken outputToken then Err InvalidRequest
  else
    match search graph (token_id outputToken) maxHops
            {[ token_id inputToken ]} (token_id inputToken) with
    | [] => Err NoRouteFound
    | found => Ok (take maxPaths (rank found))
    end.

(** Modelled from the spec: for the missing [./quote], the slippage-adjusted
    bound of section 4.6. *)
Definition slippage_bound (tradeType : TradeType) (aggregate : Qc) (slippageBps : Z)
  : Qc :=
  match tradeType with
  | ExactIn => (aggregate * (1 - Qc_of_Z slippageBps / Qc_of_Z 10000))%Qc
  | ExactOut => (aggregate * (1 + Qc_of_Z slippageBps / Qc_of_Z 10000))%Qc
  end.

(** Modelled from the spec: the quote aggregator of the missing route
    computation, [finalize(route, request)] of section 4.6, which "validates
    deadline against the current time at finalization -- if already past,
    fails with DeadlineExceeded"; [now] is that current time. *)
Definition finalize (route : Route) (request : TradeRequest) (now : Z)
  : Result Quote :=
  if rq_deadline request <? now then Err DeadlineExceeded
  else Ok {| quote_route := route;
             quote_bound := slippage_bound (rq_tradeType request)
                              (route_realized route) (rq_slippageBps request) |}.

(** Modelled from the spec: for the missing [./quote], the configured bounds
    of the path finder. *)
Record Config := mkConfig {
  maxHops : nat;
  maxPaths : nat
}.

(** Modelled from the spec: for the missing [./quote], the two instants at
    which section 5 and section 4.6 read the current time: when simulation is
    about to start, and at finalization. *)
Record Clock := mkClock {
  at_simulation : Z;
  at_finalization : Z
}.

(** Modelled from the spec: for the missing [./quote], the stages of section
    2's control flow that a request went through, for the work it caused. *)
Inductive Stage := StGraph | StPaths | StSimulate | StFinalize.

Section Pipeline.

(** Modelled from the spec: for the missing [./quote], the signature of
    [optimize(candidatePaths, totalAmount, tradeType)] of section 4.5, which
    drives the quote simulator of section 4.4; its algorithm is left open. *)
Variable optimize : list Path -> Qc -> TradeType -> Result Route.

Variable registry : Z -> list Pool.
Variable config : Config.
Variable clock : Clock.

(** Modelled from the spec: the entry point of the missing route computation,
    [computeRoute(TradeRequest)] of section 6, along the control flow of
    section 2 (Registry, Graph Builder, Path Finder, Quote Simulator and Route
    Optimizer, Quote Aggregator), with the expiry check that section 5 demands
    of simulation and optimization at the entry of that stage. *)
Definition computeRoute (request : TradeRequest) : list Stage * Result Quote :=
  let snapshot := registry (rq_chainId request) in
  let graph := buildGraph snapshot (rq_inputToken request) (rq_outputToken request) in
  match findPaths graph (rq_inputToken request) (rq_outputToken request)
          (maxHops config) (maxPaths config) with
  | Err e => ([StGraph; StPaths], Err e)
  | Ok candidatePaths =>
      if rq_deadline request <? at_simulation clock
      then ([StGraph; StPaths], Err DeadlineExceeded)
      else
        match optimize candidatePaths (rq_amount request) (rq_tradeType request) with
        | Err e => ([StGraph; StPaths; StSimulate], Err e)
        | Ok route =>
            ([StGraph; StPaths; StSimulate; StFinalize],
             finalize route request (at_finalization clock))
        end
  end.

End Pipeline.


End RoutingCore.

(** ** Sample requests and a sample market *)
Module Fixtures.
Import RoutingCore.

Definition usdc : JsValue :=
  JObj {[ "address" := JStr "0xA0b86991c6218b36c1d19D4a2e9Eb0cE3606eB48";
          "decimals" := JInt 6;
          "symbol" := JStr "USDC";
          "name" := JStr "USD Coin" ]}.

Definition weth : JsValue :=
  JObj {[ "address" := JStr "0xC02aaA39b223FE8D0A0e5C4F27eAD9083C756Cc2";
          "decimals" := JInt 18;
          "symbol" := JStr "WETH";
          "name" := JStr "Wrapped Ether" ]}.

Definition wallet : JsValue := JStr "0x52908400098527886E0F7030069857D2E4169EE7".

(** A request body without a deadline entry. *)
Definition trade (amount slippage : JsValue) : gmap string JsValue :=
  {[ "chainId" := JInt 1;
     "amount" := amount;
     "token0" := usdc;
     "token1" := weth;
     "walletAddress" := wallet;
     "slippage" := slippage;
     "tradeType" := JStr "exactIn" ]}.

Definition post (body : JsValue) : NextApiRequest :=
  {| req_method := Some "POST"; req_query := ∅; req_body := body; req_headers := ∅ |}.

Definition debug_request : NextApiRequest :=
  {| req_method := Some "GET";
     req_query := {[ "debug" := JStr "true" ]};
     req_body := JUndefined;
     req_headers := {[ "host" := JStr "localhost:8080" ]} |}.

Definition production : ProcessEnv :=
  {| NODE_ENV := Some "production"; NEXT_PUBLIC_ALLOWED_ORIGIN := None |}.

(** A route computation that always answers with an empty route. *)
Definition getRoute_empty (params : ParamsOptions) : Completion JsValue :=
  Return (JObj ∅).

Definition USDC : Token := mkToken 1 "0xA0b86991c6218b36c1d19D4a2e9Eb0cE3606eB48" 6 "USDC".
Definition WETH : Token := mkToken 1 "0xC02aaA39b223FE8D0A0e5C4F27eAD9083C756Cc2" 18 "WETH".

(** Scenario A's pool: 1,000,000 USDC against 500 ETH at 30 bps. *)
Definition usdc_weth : Pool :=
  mkPool 1 USDC WETH (ConstantProduct (Qc_of_Z 1000000) (Qc_of_Z 500) 30).

Definition registry (chain : Z) : list Pool :=
  if chain =? 1 then [usdc_weth] else [].

Definition config : Config := {| maxHops := 3; maxPaths := 4 |}.

Definition request (input output : Token) (deadline : Z) : TradeRequest :=
  {| rq_chainId := 1;
     rq_inputToken := input;
     rq_outputToken := output;
     rq_amount := Qc_of_Z 1000;
     rq_tradeType := ExactIn;
     rq_slippageBps := 50;
     rq_deadline := deadline;
     rq_walletAddress := "0x52908400098527886E0F7030069857D2E4169EE7" |}.

(** A stand-in for the optimizer stage: the whole amount on the first
    candidate, realized at par and at no cost. *)
Definition first_path_at_par (candidatePaths : list Path) (totalAmount : Qc)
    (tradeType : TradeType) : Result Route :=
  match candidatePaths with
  | [] => Err InsufficientLiquidity
  | p :: _ =>
      Ok {| route_splits := [ {| split_path := p; split_amount := totalAmount |} ];
            route_realized := totalAmount;
            route_priceImpactBps := 0%Qc;
            route_cost := 0%Qc |}
  end.

End Fixtures.

(** ** Reading a trace, and varying a request *)

(** The headers set, in order. *)
Definition headers_of (tr : list Event) : list (string * string) :=
  omap (fun ev => match ev with EvSetHeader n v => Some (n, v) | _ => None end) tr.

(** The arguments of the calls of [getRoute], in order. *)
Definition getRoute_calls (tr : list Event) : list ParamsOptions :=
  omap (fun ev => match ev with EvGetRoute p => Some p | _ => None end) tr.


(** What [JSON.stringify] keeps of the entry [name] of the object it is
    given: an entry whose value is [undefined] is left out. *)
Definition encoded_entry (body : gmap string JsValue) (name : string)
  : option JsValue :=
  match body !! name with
  | Some JUndefined => None
  | entry => entry
  end.

Definition with_body (req : NextApiRequest) (body : JsValue) : NextApiRequest :=
  {| req_method := req_method req; req_query := req_query req;
     req_body := body; req_headers := req_headers req |}.

Definition with_query (req : NextApiRequest) (query : gmap string JsValue)
  : NextApiRequest :=
  {| req_method := req_method req; req_query := query;
     req_body := req_body req; req_headers := req_headers req |}.

(** [NextApiRequest['query']] is [Partial<{ [key: string]: string | string[] }>]:
    a query value is a string or an array of strings. *)
Definition query_value (v : JsValue) : bool :=
  match v with
  | JStr _ => true
  | JArr l => forallb (fun x => match x with JStr _ => true | _ => false end) l
  | _ => false
  end.

Definition flat_query (query : gmap string JsValue) : Prop :=
  map_Forall (fun _ v => query_value v = true) query.

(** The entries [validateParams] reads. *)
Definition param_keys : list string :=
  [ "chainId"; "amount"; "walletAddress"; "slippage";
    "token0"; "token1"; "tradeType"; "deadline" ].

(** The messages of the errors [validateParams] throws. *)
Definition validation_messages : list string :=
  [ msg_params_empty; msg_required_empty; msg_token_empty; msg_tradeType;
    msg_to_primitive ].

Definition set_deadline (params : ParamsOptions) (v : JsValue) : ParamsOptions :=
  {| chainId := chainId params;
     amount := amount params;
     walletAddress := walletAddress params;
     slippage := slippage params;
     token0 := token0 params;
     token1 := token1 params;
     tradeType := tradeType params;
     deadline := v |}.

Definition set_tradeType (params : ParamsOptions) (v : JsValue) : ParamsOptions :=
  {| chainId := chainId params;
     amount := amount params;
     walletAddress := walletAddress params;
     slippage := slippage params;
     token0 := token0 params;
     token1 := token1 params;
     tradeType := v;
     deadline := deadline params |}.

(** ** The health endpoint, [pages/api/health.ts] *)
Module Health.

(** The [HealthResponse] sent; [now] is [new Date().toISOString()]. *)
Definition health_body (status now : string) : JsValue :=
  JObj {[ "status" := JStr status;
          "timestamp" := JStr now;
          "service" := JStr "smart-order-router-api";
          "version" := JStr "0.1.0" ]}.

Definition handler (now : string) (req : NextApiRequest) : Eff unit :=
  if decide (req_method req <> Some "GET") then
    (emit (EvStatus (JInt 405)) ;;; emit (EvJson (health_body "error" now)))%eff
  else
    (emit (EvStatus (JInt 200)) ;;; emit (EvJson (health_body "ok" now)))%eff.

End Health.

(** ** More sample requests *)
Module Cases.

(** A preflight request that also carries [?debug=true] and a trade. *)
Definition preflight : NextApiRequest :=
  {| req_method := Some "OPTIONS";
     req_query := {[ "debug" := JStr "true" ]};
     req_body := JObj (Fixtures.trade (JInt 1000) (JInt 50));
     req_headers := {[ "origin" := JStr "https://app.example" ]} |}.

(** A well-formed trade, posted. *)
Definition trade_post : NextApiRequest :=
  Fixtures.post (JObj (Fixtures.trade (JInt 1000) (JInt 50))).

(** The same trade as a query string:
    [?chainId=1&amount=1000&token0=0xA0b8..&token1=0xC02a..&walletAddress=0x5290..
     &slippage=50&tradeType=exactIn]. *)
Definition trade_get : NextApiRequest :=
  {| req_method := Some "GET";
     req_query := {[ "chainId" := JStr "1";
                     "amount" := JStr "1000";
                     "token0" := JStr "0xA0b86991c6218b36c1d19D4a2e9Eb0cE3606eB48";
                     "token1" := JStr "0xC02aaA39b223FE8D0A0e5C4F27eAD9083C756Cc2";
                     "walletAddress" := JStr "0x52908400098527886E0F7030069857D2E4169EE7";
                     "slippage" := JStr "50";
                     "tradeType" := JStr "exactIn" ]};
     req_body := JUndefined;
     req_headers := ∅ |}.



(** An error that carries 0 as its status. *)
Definition status_zero : ErrorObj :=
  {| err_message := JStr "upstream unavailable";
     err_status := JInt 0;
     err_code := JUndefined;
     err_stack := JStr "Error: upstream unavailable";
     err_cause := JUndefined |}.

Definition getRoute_status_zero (params : ParamsOptions) : Completion JsValue :=
  Throw (ErrorInstance status_zero).

Definition development : ProcessEnv :=
  {| NODE_ENV := Some "development"; NEXT_PUBLIC_ALLOWED_ORIGIN := None |}.

End Cases.

(** ** The deployment: the locals and IAM members of the Terraform
    configuration ([main.tf]) *)
Module Terraform.

(** The input variables the locals read. *)
Record Variables := mkVariables {
  var_environment : string;
  image_registry : string;
  image_tag_dev : string;
  image_tag_prod : string;
  dev_min_instances : Z;
  dev_max_instances : Z;
  prod_min_instances : Z;
  prod_max_instances : Z;
  dev_ingress : string;
  prod_ingress : string;
  dev_allow_unauthenticated : bool;
  prod_allow_unauthenticated : bool;
  prod_authorized_members : list string
}.

Section Locals.

Variable var : Variables.

(** [terraform.workspace] *)
Variable workspace : string.

(** [var.environment], or [terraform.workspace] when that is empty. *)
Definition environment : string :=
  if decide (var_environment var <> "") then var_environment var else workspace.

Definition service_name : string :=
  if decide (environment = "prod")
  then "smart-order-router-prod" else "smart-order-router-dev".

Definition image_tag : string :=
  if decide (environment = "prod") then image_tag_prod var else image_tag_dev var.

(** The registry joined to the tag by [@] when [regexall] finds [^sha256:]
    in the tag, by [:] otherwise. *)
Definition image_url : string :=
  if String.prefix "sha256:" image_tag
  then image_registry var +:+ "@" +:+ image_tag
  else image_registry var +:+ ":" +:+ image_tag.




Definition allow_unauthenticated : bool :=
  if decide (environment = "prod")
  then prod_allow_unauthenticated var else dev_allow_unauthenticated var.

Definition authorized_members : list string :=
  if decide (environment = "prod") then prod_authorized_members var else [].


(** [count] of the resource [public_invoker], whose member is allUsers. *)
Definition public_invoker_count : nat :=
  if allow_unauthenticated then 1%nat else 0%nat.

(** [count] of the resource [authenticated_invoker], whose member is
    [local.authorized_members[count.index]]. *)
Definition authenticated_invoker_count : nat :=
  if negb allow_unauthenticated then length authorized_members else 0%nat.

(** The members granted [roles/run.invoker], resource by resource, instance
    by instance. *)
Definition invokers : list string :=
  List.map (fun _ => "allUsers") (seq 0 public_invoker_count)
  ++ List.map (fun index => nth index authorized_members "")
       (seq 0 authenticated_invoker_count).

End Locals.

End Terraform.

(** ** The workspace helper, [deployments/tf/workspace.sh] *)
Module Workspace.

Inductive Color := RED | GREEN | YELLOW | BLUE.

(** What the script does, in order: [print_message], an empty [echo],
    [show_usage], a [terraform] command (quiet when its stderr goes to
    /dev/null), and the [read -p] of the confirmation. *)
Inductive Action :=
  | Print (color : Color) (message : string)
  | Echo
  | ShowUsage
  | Run (args : list string) (quiet : bool)
  | Read (prompt : string).

(** What the script finds around it. *)
Record World := mkWorld {
  script : string;                      (* $0 *)
  initialized : bool;                   (* the directory .terraform exists *)
  terraform : list string -> nat;       (* exit status of a terraform command *)
  shown_workspace : string;             (* output of terraform workspace show *)
  tfvars : list string;                 (* the lines of terraform.tfvars *)
  confirm : option string               (* what read stores; None at end of input *)
}.

(** A run: the actions so far, and either a value to go on with or the exit
    status the script ended with ([exit n], or a failed command under
    [set -e]). *)
Definition Sh (A : Type) : Type := list Action * (A + nat).

Definition sh_ret {A} (a : A) : Sh A := ([], inl a).

Definition sh_bind {A B} (m : Sh A) (k : A -> Sh B) : Sh B :=
  match m with
  | (tr, inr status) => (tr, inr status)
  | (tr, inl a) => let '(tr', r) := k a in (tr ++ tr', r)
  end.

Declare Scope sh_scope.
Delimit Scope sh_scope with sh.
Notation "x <- m ;; k" := (sh_bind m (fun x => k))
  (at level 100, m at next level, right associativity) : sh_scope.
Notation "m ;;; k" := (sh_bind m (fun _ => k))
  (at level 100, right associativity) : sh_scope.

Definition act (a : Action) : Sh unit := ([a], inl tt).

Definition exit {A} (status : nat) : Sh A := ([], inr status).

Definition double_quote : Ascii.ascii := Ascii.ascii_of_nat 34.
Definition newline : Ascii.ascii := Ascii.ascii_of_nat 10.

(** The text after the first '=' of a line, if there is one. *)
Fixpoint after_delimiter (s : string) : option string :=
  match s with
  | EmptyString => None
  | String c rest => if Ascii.eqb c "="%char then Some rest else after_delimiter rest
  end.

(** The text before the first '=' of a line. *)
Fixpoint upto_delimiter (s : string) : string :=
  match s with
  | EmptyString => EmptyString
  | String c rest =>
      if Ascii.eqb c "="%char then EmptyString else String c (upto_delimiter rest)
  end.

(** [cut -d'=' -f2]: the second field, or the whole line when it has no
    delimiter. *)
Definition cut_f2 (line : string) : string :=
  match after_delimiter line with
  | None => line
  | Some rest => upto_delimiter rest
  end.

(** [tr -d] of the space and the double quote. *)
Fixpoint tr_d (s : string) : string :=
  match s with
  | EmptyString => EmptyString
  | String c rest =>
      if Ascii.eqb c " "%char || Ascii.eqb c double_quote
      then tr_d rest else String c (tr_d rest)
  end.

(** The command substitution drops the newlines that end the output. *)
Fixpoint strip_newlines (ls : list string) : list string :=
  match ls with
  | [] => []
  | l :: rest =>
      match strip_newlines rest with
      | [] => if String.eqb l "" then [] else [l]
      | rest' => l :: rest'
      end
  end.

(** The value the script reads for [key]: [grep '^key' terraform.tfvars],
    piped through [cut -d'=' -f2] and the [tr -d] above, inside a command
    substitution. *)
Definition tfvars_value (key : string) (lines : list string) : string :=
  String.concat (String newline EmptyString)
    (strip_newlines
       (List.map (fun line => tr_d (cut_f2 line))
          (List.filter (String.prefix key) lines))).

(** A line of terraform.tfvars as the deployment guide writes it: the key, an
    equals sign between two spaces, the value between double quotes. *)
Definition assignment (key value : string) : string :=
  key +:+ " = " +:+ String double_quote (value +:+ String double_quote "").

(** No character of [s] is [bad]. *)
Fixpoint free_of (bad : Ascii.ascii -> bool) (s : string) : bool :=
  match s with
  | EmptyString => true
  | String c rest => negb (bad c) && free_of bad rest
  end.

Definition is_delimiter (c : Ascii.ascii) : bool := Ascii.eqb c "="%char.

Definition is_deleted (c : Ascii.ascii) : bool :=
  Ascii.eqb c " "%char || Ascii.eqb c double_quote.

Section Script.

Variable w : World.

(** A terraform command under [set -e]: the script ends with the command's
    status when it fails. *)
Definition run (args : list string) : Sh unit :=
  (act (Run args false) ;;;
   match terraform w args with
   | O => sh_ret tt
   | status => exit status
   end)%sh.

(** [terraform ... 2>/dev/null || otherwise] *)
Definition run_or (args : list string) (otherwise : Sh unit) : Sh unit :=
  (act (Run args true) ;;;
   match terraform w args with
   | O => sh_ret tt
   | _ => otherwise
   end)%sh.

Definition check_terraform_init : Sh unit :=
  if negb (initialized w) then
    (act (Print RED ("Error: Terraform not initialized. Run '" +:+ script w
                     +:+ " setup' first.")) ;;;
     exit 1)%sh
  else sh_ret tt.

(** The guard shared by [switch], [import] and [delete]: the second
    argument is missing or empty. *)
Definition require_environment (env : string) : Sh unit :=
  if String.eqb env "" then
    (act (Print RED "Error: Environment required (dev/prod)") ;;;
     act ShowUsage ;;;
     exit 1)%sh
  else sh_ret tt.

(** The guard of [switch] and [import]: ENV is neither dev nor prod. *)
Definition require_dev_or_prod (env : string) : Sh unit :=
  if negb (String.eqb env "dev") && negb (String.eqb env "prod") then
    (act (Print RED "Error: Environment must be 'dev' or 'prod'") ;;;
     exit 1)%sh
  else sh_ret tt.

Definition setup : Sh unit :=
  (act (Print BLUE "🚀 Setting up Terraform for Smart Order Router...") ;;;
   act Echo ;;;
   act (Print YELLOW "Step 1: Initializing Terraform...") ;;;
   run ["init"] ;;;
   act (Print GREEN "✅ Terraform initialized!") ;;;
   act Echo ;;;
   act (Print YELLOW "Step 2: Creating workspaces...") ;;;
   run_or ["workspace"; "new"; "dev"]
     (act (Print YELLOW "Workspace 'dev' already exists")) ;;;
   run_or ["workspace"; "new"; "prod"]
     (act (Print YELLOW "Workspace 'prod' already exists")) ;;;
   run_or ["workspace"; "select"; "default"] (sh_ret tt) ;;;
   act (Print GREEN "✅ Workspaces created!") ;;;
   act Echo ;;;
   act (Print BLUE "📋 Next steps:") ;;;
   act (Print BLUE ("1. Switch to a workspace: " +:+ script w +:+ " switch dev")) ;;;
   act (Print BLUE "2. Plan changes: terraform plan") ;;;
   act (Print BLUE "3. Apply changes: terraform apply") ;;;
   act (Print BLUE "") ;;;
   act (Print BLUE ("Or import existing services: " +:+ script w +:+ " import dev")))%sh.

Definition switch (env : string) : Sh unit :=
  (require_environment env ;;;
   check_terraform_init ;;;
   require_dev_or_prod env ;;;
   act (Print BLUE ("Switching to workspace: " +:+ env)) ;;;
   run ["workspace"; "select"; env] ;;;
   act (Print GREEN ("✅ Now on workspace: " +:+ env)))%sh.

Definition list_workspaces : Sh unit :=
  (check_terraform_init ;;;
   act (Print BLUE "Available workspaces:") ;;;
   run ["workspace"; "list"])%sh.

Definition current : Sh unit :=
  (check_terraform_init ;;;
   run ["workspace"; "show"] ;;;
   act (Print BLUE ("Current workspace: " +:+ shown_workspace w)))%sh.

(** The resource id that [import] hands to terraform. *)
Definition import_id (env : string) : string :=
  "projects/" +:+ tfvars_value "project_id" (tfvars w)
  +:+ "/locations/" +:+ tfvars_value "region" (tfvars w)
  +:+ "/services/" +:+ ("smart-order-router-" +:+ env).

Definition import (env : string) : Sh unit :=
  (require_environment env ;;;
   check_terraform_init ;;;
   require_dev_or_prod env ;;;
   run ["workspace"; "select"; env] ;;;
   act (Print YELLOW ("Importing service: " +:+ ("smart-order-router-" +:+ env))) ;;;
   act (Print BLUE ("Project: " +:+ tfvars_value "project_id" (tfvars w))) ;;;
   act (Print BLUE ("Region: " +:+ tfvars_value "region" (tfvars w))) ;;;
   act Echo ;;;
   run ["import"; "google_cloud_run_v2_service.smart_order_router"; import_id env] ;;;
   act (Print GREEN "✅ Import completed!") ;;;
   act (Print BLUE "Next: Run 'terraform plan' to see any configuration drift"))%sh.

Definition delete_workspace (env : string) : Sh unit :=
  (require_environment env ;;;
   check_terraform_init ;;;
   act (Print RED ("⚠️  WARNING: This will delete workspace '" +:+ env
                   +:+ "' and its state!")) ;;;
   act (Read "Type 'YES' to confirm: ") ;;;
   match confirm w with
   | None => exit 1
   | Some answer =>
       if String.eqb answer "YES" then
         run ["workspace"; "select"; "default"] ;;;
         run ["workspace"; "delete"; env] ;;;
         act (Print GREEN ("✅ Workspace '" +:+ env +:+ "' deleted"))
       else act (Print YELLOW "Operation cancelled")
   end)%sh.

(** The [case] on the first argument. *)
Definition dispatch (args : list string) : Sh unit :=
  let command := nth 0 args "" in
  let env := nth 1 args "" in
  if String.eqb command "setup" then setup
  else if String.eqb command "switch" then switch env
  else if String.eqb command "list" then list_workspaces
  else if String.eqb command "current" then current
  else if String.eqb command "import" then import env
  else if String.eqb command "delete" then delete_workspace env
  else act ShowUsage.

(** The whole script: its actions and its exit status. *)
Definition main (args : list string) : list Action * nat :=
  match dispatch args with
  | (tr, inl tt) => (tr, 0%nat)
  | (tr, inr status) => (tr, status)
  end.

End Script.

(** The terraform commands of a run, in order. *)
Definition commands (tr : list Action) : list (list string) :=
  omap (fun a => match a with Run args _ => Some args | _ => None end) tr.

(** A world for examples: initialized, every command succeeding, the
    template of the deployment guide as terraform.tfvars. *)
Definition sample_world (answer : option string) : World :=
  {| script := "./workspace.sh";
     initialized := true;
     terraform := fun _ => 0%nat;
     shown_workspace := "dev";
     tfvars := [ "# Project (required)";
                 assignment "project_id" "your-gcp-project-id";
                 assignment "region" "asia-east1" ];
     confirm := answer |}.

End Workspace.

(** * Properties of the request layer *)

(** ** JavaScript values *)

Lemma get_truthy_object (v : JsValue) (name : string) :
  truthy (get v name) = true -> exists m, v = JObj m.
Proof.
  destruct v; simpl; try discriminate. eauto.
Qed.

Lemma positive_number_truthy (v : JsValue) :
  positive_number v = true -> truthy v = true.
Proof.
  destruct v as [| | |n| | |]; simpl; try discriminate.
  destruct n; simpl; congruence.
Qed.

Lemma non_empty_string_truthy (v : JsValue) :
  non_empty_string v = true -> truthy v = true.
Proof.
  destruct v; simpl; try discriminate. auto.
Qed.

Lemma nonzero_in_range_truthy (v : JsValue) :
  slippage_in_range v = true -> is_zero_number v = false -> truthy v = true.
Proof.
  destruct v as [| | |n| | |]; simpl; try discriminate.
  destruct n; simpl; try discriminate; auto.
Qed.

Lemma well_formed_token_truthy (t : JsValue) :
  well_formed_token t = true ->
  truthy t = true /\ truthy (get t "address") = true
  /\ truthy (get t "decimals") = true.
Proof.
  unfold well_formed_token. intros [Ha Hd]%andb_prop.
  apply non_empty_string_truthy in Ha. apply positive_number_truthy in Hd.
  destruct (get_truthy_object _ _ Ha) as [m ->]. auto.
Qed.

Lemma exact_in_or_out_loosely (t : JsValue) :
  exact_in_or_out t = true ->
  truthy t = true /\ loosely_exact_in_or_out t = true.
Proof.
  unfold exact_in_or_out, loosely_exact_in_or_out.
  destruct t as [| | | |s| |]; simpl; try discriminate.
  intros [H|H]%orb_prop; apply String.eqb_eq in H; subst s; auto.
Qed.

(** ** validateParams against [accepts] *)

Lemma tradeType_rejected_loosely (t : JsValue) :
  match tradeType_rejected t with
  | Return b => b = negb (loosely_exact_in_or_out t)
  | Throw e => loosely_exact_in_or_out t = false /\ e = new_TypeError msg_to_primitive
  end.
Proof.
  unfold tradeType_rejected, loosely_exact_in_or_out.
  destruct (loose_eq_string t "exactIn") as [[|]|]; simpl; auto.
  destruct (loose_eq_string t "exactOut") as [[|]|]; simpl; auto.
Qed.

Lemma accepts_guards (o : JsValue) :
  accepts o =
  truthy o && negb (required_missing o) && negb (token_missing o)
  && loosely_exact_in_or_out (get o "tradeType").
Proof.
  unfold accepts, required_missing, token_missing.
  destruct (truthy o) eqn:Ho.
  - rewrite !negb_orb, !negb_involutive, !andb_assoc. reflexivity.
  - assert (truthy (get o "chainId") = false) as ->; [|reflexivity].
    destruct (truthy (get o "chainId")) eqn:Hc; [|reflexivity].
    apply get_truthy_object in Hc as [m ->]. discriminate.
Qed.

Lemma validateParams_accepts (req : NextApiRequest) (method : Method) :
  accepts (paramsObj_of req method) = true ->
  validateParams req method = Return (params_of (paramsObj_of req method)).
Proof.
  rewrite accepts_guards. unfold validateParams.
  intros [[[Ho Hr]%andb_prop Ht]%andb_prop Hl]%andb_prop.
  rewrite Ho. apply negb_true_iff in Hr, Ht. rewrite Hr, Ht. simpl.
  pose proof (tradeType_rejected_loosely (get (paramsObj_of req method) "tradeType")) as H.
  destruct (tradeType_rejected _) as [b|e].
  - rewrite Hl in H. subst b. reflexivity.
  - destruct H as [H _]. congruence.
Qed.

Lemma validateParams_rejects (req : NextApiRequest) (method : Method) :
  accepts (paramsObj_of req method) = false ->
  exists msg,
    (validateParams req method = Throw (new_Error msg)
     \/ validateParams req method = Throw (new_TypeError msg))
    /\ msg <> "".
Proof.
  rewrite accepts_guards. unfold validateParams. intros H.
  destruct (truthy (paramsObj_of req method)); simpl in *.
  2: { exists msg_params_empty. split; [auto | discriminate]. }
  destruct (required_missing _); simpl in *.
  { exists msg_required_empty. split; [auto | discriminate]. }
  destruct (token_missing _); simpl in *.
  { exists msg_token_empty. split; [auto | discriminate]. }
  pose proof (tradeType_rejected_loosely (get (paramsObj_of req method) "tradeType")) as Ht.
  destruct (tradeType_rejected _) as [b|e].
  - rewrite H in Ht. subst b. exists msg_tradeType. split; [auto | discriminate].
  - destruct Ht as [_ ->]. exists msg_to_primitive. split; [auto | discriminate].
Qed.

Lemma well_formed_required_accepts (o : JsValue) :
  well_formed_required o = true ->
  is_zero_number (get o "slippage") = false ->
  accepts o = true.
Proof.
  unfold well_formed_required, accepts.
  intros [[[[[[Hc Ha]%andb_prop Hw]%andb_prop Hs]%andb_prop H0]%andb_prop
            H1]%andb_prop Ht]%andb_prop Hz.
  apply positive_number_truthy in Hc, Ha.
  apply non_empty_string_truthy in Hw.
  apply (nonzero_in_range_truthy _ Hs) in Hz.
  apply well_formed_token_truthy in H0 as (? & ? & ?).
  apply well_formed_token_truthy in H1 as (? & ? & ?).
  apply exact_in_or_out_loosely in Ht as [? ?].
  repeat (apply andb_true_intro; split); assumption.
Qed.

(** ** handleError *)

Lemma js_or_non_empty (msg : string) (other : JsValue) :
  msg <> "" -> js_or (JStr msg) other = JStr msg.
Proof.
  intros Hmsg. unfold js_or. simpl.
  destruct (String.eqb msg "") eqn:E; [|reflexivity].
  apply String.eqb_eq in E. contradiction.
Qed.

(** The sends: both calls are made, and the response decides how the second
    one completes. *)
Lemma send_json_run (res : NextApiResponse) (code body : JsValue) :
  send_json res code body
  = ([EvStatus code; EvJson body],
     match send_error res code with
     | Some refusal => Throw refusal
     | None => Return tt
     end).
Proof.
  unfold send_json, sending. destruct (send_error res code); reflexivity.
Qed.

Lemma send_json_valid (res : NextApiResponse) (code : Z) (body : JsValue) :
  100 <= code <= 999 ->
  send_json res (JInt code) body = ([EvStatus (JInt code); EvJson body], Return tt).
Proof.
  intros H. rewrite send_json_run, (send_error_valid res code H). reflexivity.
Qed.

Lemma send_end_valid (res : NextApiResponse) (code : Z) :
  100 <= code <= 999 ->
  send_end res (JInt code) = ([EvStatus (JInt code); EvEnd], Return tt).
Proof.
  intros H. unfold send_end, sending.
  rewrite (send_error_valid res code H). reflexivity.
Qed.

Lemma handleError_new_Error (res : NextApiResponse) (env : ProcessEnv)
    (name msg : string) :
  msg <> "" ->
  exists payload,
    handleError res env (ErrorInstance (new_Error_named name msg))
    = ([EvStatus (JInt 500); EvJson (JObj payload)], Return tt)
    /\ payload !! "code" = Some (JInt 500)
    /\ payload !! "message" = Some (JStr msg).
Proof.
  intros Hmsg. unfold handleError, new_Error_named. simpl.
  rewrite (js_or_non_empty msg _ Hmsg).
  destruct (decide (NODE_ENV env = Some "development"));
    eexists; (split; [apply (send_json_valid res 500); lia|]); split; reflexivity.
Qed.

(** ** handler *)

Lemma cors_headers_trace (env : ProcessEnv) :
  cors_headers env = (cors_trace env, Return tt).
Proof. reflexivity. Qed.

Lemma handler_options res getRoute (env : ProcessEnv) (req : NextApiRequest) :
  req_method req = Some "OPTIONS" ->
  handler res getRoute env req
  = (cors_trace env ++ [EvStatus (JInt 204); EvEnd], Return tt).
Proof.
  intros H. unfold handler. rewrite cors_headers_trace.
  unfold eff_bind at 1. destruct (decide _); [|contradiction].
  rewrite (send_end_valid res 204) by lia. reflexivity.
Qed.

Lemma handler_debug res getRoute (env : ProcessEnv) (req : NextApiRequest) :
  req_method req <> Some "OPTIONS" ->
  strict_eq_string (debug_of req) "true" = true ->
  handler res getRoute env req
  = (cors_trace env ++ [EvStatus (JInt 200); EvJson (debug_body env req)],
     Return tt).
Proof.
  intros H Hd. unfold handler. rewrite cors_headers_trace.
  unfold eff_bind at 1. destruct (decide _); [contradiction|].
  rewrite Hd, (send_json_valid res 200) by lia. reflexivity.
Qed.

Lemma handler_validates res getRoute (env : ProcessEnv) (req : NextApiRequest) :
  req_method req <> Some "OPTIONS" ->
  strict_eq_string (debug_of req) "true" = false ->
  handler res getRoute env req
  = match validateParams req (method_of req) with
    | Throw e =>
        (cors_trace env ++ EvValidateParams (method_of req) :: fst (handleError res env e),
         snd (handleError res env e))
    | Return params =>
        match getRoute params with
        | Throw e =>
            (cors_trace env ++ EvValidateParams (method_of req) :: EvGetRoute params
               :: fst (handleError res env e),
             snd (handleError res env e))
        | Return data =>
            (cors_trace env ++ [ EvValidateParams (method_of req); EvGetRoute params;
                                 EvStatus (JInt 200); EvJson (success_body data) ],
             Return tt)
        end
    end.
Proof.
  intros H Hd. unfold handler. rewrite cors_headers_trace.
  unfold eff_bind at 1. destruct (decide _); [contradiction|].
  rewrite Hd.
  destruct (validateParams req (method_of req)) as [params|e].
  - cbn -[send_json JInt handleError].
    destruct (getRoute params) as [data|e].
    + rewrite (send_json_valid res 200) by lia. reflexivity.
    + cbn -[handleError]. destruct (handleError res env e) as [tr c]. reflexivity.
  - simpl. destruct (handleError res env e) as [tr c]. reflexivity.
Qed.

Lemma handler_cases (req : NextApiRequest) :
  req_method req = Some "OPTIONS"
  \/ (req_method req <> Some "OPTIONS"
      /\ strict_eq_string (debug_of req) "true" = true)
  \/ (req_method req <> Some "OPTIONS"
      /\ strict_eq_string (debug_of req) "true" = false).
Proof.
  destruct (decide (req_method req = Some "OPTIONS")); [auto|].
  destruct (strict_eq_string (debug_of req) "true"); auto.
Qed.


(** ** Amounts *)

Lemma falsy_amount_throws (req : NextApiRequest) (method : Method) :
  truthy (get (paramsObj_of req method) "amount") = false ->
  validateParams req method = Throw (new_Error msg_params_empty)
  \/ validateParams req method = Throw (new_Error msg_required_empty).
Proof.
  intros H. unfold validateParams.
  destruct (truthy (paramsObj_of req method)); simpl; [|auto].
  assert (required_missing (paramsObj_of req method) = true) as ->; [|auto].
  unfold required_missing. rewrite H. simpl.
  rewrite !orb_true_r. reflexivity.
Qed.

Lemma thrown_validation_trace res getRoute (env : ProcessEnv) (req : NextApiRequest)
    (name msg : string) :
  req_method req <> Some "OPTIONS" ->
  strict_eq_string (debug_of req) "true" = false ->
  validateParams req (method_of req) = Throw (ErrorInstance (new_Error_named name msg)) ->
  msg <> "" ->
  exists payload,
    handler res getRoute env req
    = (cors_trace env ++ [ EvValidateParams (method_of req);
                           EvStatus (JInt 500); EvJson (JObj payload) ],
       Return tt)
    /\ payload !! "code" = Some (JInt 500)
    /\ payload !! "message" = Some (JStr msg).
Proof.
  intros Ho Hd Hv Hmsg.
  rewrite (handler_validates res getRoute env req Ho Hd), Hv.
  destruct (handleError_new_Error res env name msg Hmsg) as (payload & -> & Hc & Hm).
  exists payload. auto.
Qed.

(** C1, as amended: validateParams rejects every parameter object whose
    amount is absent or falsy (undefined, null, 0, -0, NaN, the empty string,
    false): it throws a plain Error, 'params cannot be empty' or
    'params[...] cannot be empty'. In the handler no route computation is
    invoked for such a request, and when validation is reached the response is
    status 500 with code 500. *)
Theorem validateParams_rejects_falsy_amount
    (res : NextApiResponse)
    (getRoute : ParamsOptions -> Completion JsValue)
    (env : ProcessEnv) (req : NextApiRequest) (method : Method) :
  truthy (get (paramsObj_of req method) "amount") = false ->
  (validateParams req method = Throw (new_Error msg_params_empty)
   \/ validateParams req method = Throw (new_Error msg_required_empty))
  /\ (method = method_of req ->
      invokes_getRoute (fst (handler res getRoute env req)) = false
      /\ (req_method req <> Some "OPTIONS" ->
          strict_eq_string (debug_of req) "true" = false ->
          exists payload,
            response_of (fst (handler res getRoute env req))
            = [EvStatus (JInt 500); EvJson (JObj payload)]
            /\ payload !! "code" = Some (JInt 500))).
Proof.
  intros H. split; [exact (falsy_amount_throws req method H)|].
  intros ->.
  assert (forall name msg,
             req_method req <> Some "OPTIONS" ->
             strict_eq_string (debug_of req) "true" = false ->
             validateParams req (method_of req)
             = Throw (ErrorInstance (new_Error_named name msg)) ->
             msg <> "" ->
             invokes_getRoute (fst (handler res getRoute env req)) = false
             /\ exists payload,
                 response_of (fst (handler res getRoute env req))
                 = [EvStatus (JInt 500); EvJson (JObj payload)]
                 /\ payload !! "code" = Some (JInt 500)) as Hreached.
  { intros name msg Ho Hd Hv Hmsg.
    destruct (thrown_validation_trace res getRoute env req name msg Ho Hd Hv Hmsg)
      as (payload & -> & Hc & _).
    split; [reflexivity|]. exists payload. split; [reflexivity | exact Hc]. }
  assert (invokes_getRoute (fst (handler res getRoute env req)) = false
          /\ (req_method req <> Some "OPTIONS" ->
              strict_eq_string (debug_of req) "true" = false ->
              exists payload,
                response_of (fst (handler res getRoute env req))
                = [EvStatus (JInt 500); EvJson (JObj payload)]
                /\ payload !! "code" = Some (JInt 500))) as Hgoal; [|exact Hgoal].
  destruct (handler_cases req) as [Ho | [[Ho Hd] | [Ho Hd]]].
  - rewrite (handler_options res getRoute env req Ho).
    split; [reflexivity | contradiction].
  - rewrite (handler_debug res getRoute env req Ho Hd).
    split; [reflexivity | congruence].
  - destruct (falsy_amount_throws req (method_of req) H) as [Hv | Hv].
    + destruct (Hreached "Error" msg_params_empty Ho Hd Hv) as [Hn Hp];
        [discriminate|]. split; [exact Hn | intros _ _; exact Hp].
    + destruct (Hreached "Error" msg_required_empty Ho Hd Hv) as [Hn Hp];
        [discriminate|]. split; [exact Hn | intros _ _; exact Hp].
Qed.

(** C1 at a request whose amount is 0. *)
Lemma validateParams_rejects_falsy_amount_witness :
  let req := Fixtures.post (JObj (Fixtures.trade (JInt 0) (JInt 50))) in
  (validateParams req Mpost = Throw (new_Error msg_params_empty)
   \/ validateParams req Mpost = Throw (new_Error msg_required_empty))
  /\ (Mpost = method_of req ->
      invokes_getRoute (fst (handler Node.response Fixtures.getRoute_empty Fixtures.production req))
      = false
      /\ (req_method req <> Some "OPTIONS" ->
          strict_eq_string (debug_of req) "true" = false ->
          exists payload,
            response_of (fst (handler Node.response Fixtures.getRoute_empty Fixtures.production req))
            = [EvStatus (JInt 500); EvJson (JObj payload)]
            /\ payload !! "code" = Some (JInt 500))).
Proof.
  apply (validateParams_rejects_falsy_amount
           Node.response Fixtures.getRoute_empty Fixtures.production
           (Fixtures.post (JObj (Fixtures.trade (JInt 0) (JInt 50)))) Mpost).
  reflexivity.
Defined.

(** C1 as stated fails: an amount of -5, with every other entry in place,
    passes validation, and the handler goes on to the route computation. *)
Lemma validateParams_accepts_negative_amount :
  num_negative (num_of_Z (-5)) = true
  /\ validateParams (Fixtures.post (JObj (Fixtures.trade (JInt (-5)) (JInt 50)))) Mpost
     = Return (params_of (JObj (Fixtures.trade (JInt (-5)) (JInt 50))))
  /\ invokes_getRoute
       (fst (handler Node.response Fixtures.getRoute_empty Fixtures.production
               (Fixtures.post (JObj (Fixtures.trade (JInt (-5)) (JInt 50))))))
     = true.
Proof. repeat split; vm_compute; reflexivity. Qed.

(** ** Slippage *)

(** Every slippage in range other than zero is accepted and returned as
    received. *)
Lemma validateParams_accepts_nonzero_slippage
    (req : NextApiRequest) (method : Method) :
  well_formed_required (paramsObj_of req method) = true ->
  is_zero_number (get (paramsObj_of req method) "slippage") = false ->
  validateParams req method = Return (params_of (paramsObj_of req method))
  /\ slippage (params_of (paramsObj_of req method))
     = get (paramsObj_of req method) "slippage".
Proof.
  intros Hw Hz. split; [|reflexivity].
  apply validateParams_accepts, well_formed_required_accepts; assumption.
Qed.

(** C2: a slippage of 0 basis points lies in the stated range, and the
    request carrying it is well-formed in every entry; validateParams
    nevertheless throws 'params[...] cannot be empty', because [!slippage]
    holds of the number 0. *)
Theorem validateParams_rejects_zero_slippage :
  slippage_in_range (JInt 0) = true
  /\ well_formed_required (JObj (Fixtures.trade (JInt 1000) (JInt 0))) = true
  /\ validateParams (Fixtures.post (JObj (Fixtures.trade (JInt 1000) (JInt 0)))) Mpost
     = Throw (new_Error msg_required_empty).
Proof. repeat split; vm_compute; reflexivity. Qed.

(** ** What validateParams enforces *)

(** C3 as stated fails: a request that meets every condition the claim lists,
    but has no wallet address, is rejected. *)
Lemma validateParams_requires_walletAddress :
  spec_well_formed
    (JObj (delete "walletAddress" (Fixtures.trade (JInt 1000) (JInt 50)))) = true
  /\ validateParams
       (Fixtures.post
          (JObj (delete "walletAddress" (Fixtures.trade (JInt 1000) (JInt 50)))))
       Mpost
     = Throw (new_Error msg_required_empty).
Proof. split; vm_compute; reflexivity. Qed.

(** C3, as amended: for a parameter object whose slippage is not the number 0,
    validateParams returns the ParamsOptions made of the object's entries if
    chainId, amount, token0, token1, walletAddress, slippage and tradeType are
    truthy, both tokens carry a truthy address and truthy decimals, and
    tradeType is loosely equal to 'exactIn' or 'exactOut'; otherwise it throws
    an Error. *)
Theorem validateParams_returns_iff_accepts
    (req : NextApiRequest) (method : Method) :
  is_zero_number (get (paramsObj_of req method) "slippage") = false ->
  (accepts (paramsObj_of req method) = true
   /\ validateParams req method = Return (params_of (paramsObj_of req method)))
  \/ (accepts (paramsObj_of req method) = false
      /\ exists e, validateParams req method = Throw (ErrorInstance e)).
Proof.
  intros _. destruct (accepts (paramsObj_of req method)) eqn:Ha.
  - left. split; [reflexivity|]. apply validateParams_accepts, Ha.
  - right. split; [reflexivity|].
    destruct (validateParams_rejects req method Ha) as (msg & [H|H] & _);
      rewrite H; eexists; reflexivity.
Qed.

(** C3 at a well-formed request with a slippage of 50 basis points. *)
Lemma validateParams_returns_iff_accepts_witness :
  let req := Fixtures.post (JObj (Fixtures.trade (JInt 1000) (JInt 50))) in
  (accepts (paramsObj_of req Mpost) = true
   /\ validateParams req Mpost = Return (params_of (paramsObj_of req Mpost)))
  \/ (accepts (paramsObj_of req Mpost) = false
      /\ exists e, validateParams req Mpost = Throw (ErrorInstance e)).
Proof.
  apply (validateParams_returns_iff_accepts
           (Fixtures.post (JObj (Fixtures.trade (JInt 1000) (JInt 50)))) Mpost).
  reflexivity.
Defined.

(** ** The debug bypass *)

(** C8: when the method is not OPTIONS and the query's debug entry is the
    string 'true', the handler answers 200 with a body that carries the
    environment name and the request's headers, and calls neither
    validateParams nor getRoute, whatever else the request holds. *)
Theorem handler_debug_bypass
    (res : NextApiResponse)
    (getRoute : ParamsOptions -> Completion JsValue)
    (env : ProcessEnv) (req : NextApiRequest) :
  req_method req <> Some "OPTIONS" ->
  req_query req !! "debug" = Some (JStr "true") ->
  snd (handler res getRoute env req) = Return tt
  /\ response_of (fst (handler res getRoute env req))
     = [ EvStatus (JInt 200);
         EvJson (JObj {[ "schedulerToken" := JStr "";
                         "environment" := match NODE_ENV env with
                                          | Some name => JStr name
                                          | None => JUndefined
                                          end;
                         "headers" := JObj (req_headers req) ]}) ]
  /\ invokes_validateParams (fst (handler res getRoute env req)) = false
  /\ invokes_getRoute (fst (handler res getRoute env req)) = false.
Proof.
  intros Ho Hq.
  assert (strict_eq_string (debug_of req) "true" = true) as Hd.
  { unfold debug_of. rewrite Hq. reflexivity. }
  rewrite (handler_debug res getRoute env req Ho Hd).
  repeat split; reflexivity.
Qed.

(** C8 at a GET request with [?debug=true] and no trade parameter at all. *)
Lemma handler_debug_bypass_witness :
  snd (handler Node.response Fixtures.getRoute_empty Fixtures.production Fixtures.debug_request)
  = Return tt
  /\ response_of
       (fst (handler Node.response Fixtures.getRoute_empty Fixtures.production Fixtures.debug_request))
     = [ EvStatus (JInt 200);
         EvJson (JObj {[ "schedulerToken" := JStr "";
                         "environment" := JStr "production";
                         "headers" := JObj {[ "host" := JStr "localhost:8080" ]} ]}) ]
  /\ invokes_validateParams
       (fst (handler Node.response Fixtures.getRoute_empty Fixtures.production Fixtures.debug_request))
     = false
  /\ invokes_getRoute
       (fst (handler Node.response Fixtures.getRoute_empty Fixtures.production Fixtures.debug_request))
     = false.
Proof.
  apply (handler_debug_bypass
           Node.response Fixtures.getRoute_empty Fixtures.production Fixtures.debug_request).
  - discriminate.
  - reflexivity.
Defined.

(** ** Error responses *)

(** What handleError does, whatever was thrown: exactly one
    [status(..).json(..)] call. For an Error the status is its status field,
    or 500 when that is undefined or null; the code is its code field, or that
    status; the message is its message, or 'Server internal error' when that
    is falsy. For a thrown string the call is 500 with the string as message,
    for any other value 500 with 'Server internal error'. handleError
    completes normally exactly when the response accepts the status, as it
    does for a value that is not an Error, for an Error without a status, and
    for an integer status in 100..999; otherwise the refusal of the response
    is thrown out of handleError. *)
Lemma handleError_one_json_call
    (res : NextApiResponse) (env : ProcessEnv) (error : Thrown) :
  exists status payload,
    fst (handleError res env error) = [EvStatus status; EvJson (JObj payload)]
    /\ snd (handleError res env error)
       = match send_error res status with
         | Some refusal => Throw refusal
         | None => Return tt
         end
    /\ match error with
       | ErrorInstance e =>
           status = nullish (err_status e) (JInt 500)
           /\ payload !! "code" = Some (nullish (err_code e) status)
           /\ payload !! "message"
              = Some (js_or (err_message e) (JStr "Server internal error"))
           /\ (present (err_status e) = false ->
               snd (handleError res env error) = Return tt)
       | NonError (JStr s) =>
           status = JInt 500
           /\ payload = {[ "code" := JInt 500; "message" := JStr s ]}
           /\ snd (handleError res env error) = Return tt
       | NonError _ =>
           status = JInt 500
           /\ payload = {[ "code" := JInt 500;
                           "message" := JStr "Server internal error" ]}
           /\ snd (handleError res env error) = Return tt
       end
    /\ (forall code : Z,
          status = JInt code -> 100 <= code <= 999 ->
          snd (handleError res env error) = Return tt).
Proof.
  assert (Hint : forall code body,
             100 <= code <= 999 ->
             snd (send_json res (JInt code) body) = Return tt).
  { intros code body Hin. rewrite (send_json_valid res code body Hin). reflexivity. }
  destruct error as [apiError|v].
  - unfold handleError.
    set (status := nullish (err_status apiError) (JInt 500)).
    destruct (decide (NODE_ENV env = Some "development"));
      eexists status, _; rewrite send_json_run;
      (split; [reflexivity|]); (split; [reflexivity|]);
      (split; [|intros code -> Hrange; rewrite <- send_json_run; apply Hint, Hrange]);
      (repeat split; try reflexivity);
      intros Hnone; subst status;
      destruct (err_status apiError); try discriminate; simpl;
      rewrite (send_error_valid res 500) by lia; reflexivity.
  - destruct v; eexists (JInt 500), _; unfold handleError; rewrite send_json_run;
      (split; [reflexivity|]); (split; [reflexivity|]);
      (split; [|intros code -> Hrange; rewrite <- send_json_run; apply Hint, Hrange]);
      (repeat split; try reflexivity);
      rewrite <- send_json_run; apply Hint; lia.
Qed.

(** C9: handleError is not total. At an Error whose status is 0 the two calls
    are made with the status, code and message the claim names, and the send
    throws Node's RangeError for the status out of handleError: the error
    handler itself fails and no JSON error response is produced. *)
Theorem handleError_refused_status_throws :
  handleError Node.response Fixtures.production (ErrorInstance Cases.status_zero)
  = ([ EvStatus (JInt 0);
       EvJson (JObj {[ "code" := JInt 0;
                       "message" := JStr "upstream unavailable" ]}) ],
     Throw (ErrorInstance
              {| err_message := JStr "Invalid status code: 0";
                 err_status := JUndefined;
                 err_code := JStr "ERR_HTTP_INVALID_STATUS_CODE";
                 err_stack :=
                   JStr "RangeError [ERR_HTTP_INVALID_STATUS_CODE]: Invalid status code: 0";
                 err_cause := JUndefined |})).
Proof. reflexivity. Qed.

(** ** The deadline *)

(** C10: the deadline is never looked at: a parameter object without a
    deadline entry whose required entries are well-formed and whose slippage
    is not 0 passes validation, and what is returned holds the seven entries
    as received and undefined as deadline. With slippage 0, which is
    well-formed, the same object is refused by the truthiness guard, against
    the claim. *)
Theorem validateParams_deadline_optional_unless_zero_slippage :
  (forall (req : NextApiRequest) (method : Method) (entries : gmap string JsValue),
      paramsObj_of req method = JObj entries ->
      entries !! "deadline" = None ->
      well_formed_required (JObj entries) = true ->
      is_zero_number (get (JObj entries) "slippage") = false ->
      exists params,
        validateParams req method = Return params
        /\ deadline params = JUndefined
        /\ Some (chainId params) = entries !! "chainId"
        /\ Some (amount params) = entries !! "amount"
        /\ Some (walletAddress params) = entries !! "walletAddress"
        /\ Some (slippage params) = entries !! "slippage"
        /\ Some (token0 params) = entries !! "token0"
        /\ Some (token1 params) = entries !! "token1"
        /\ Some (tradeType params) = entries !! "tradeType")
  /\ (Fixtures.trade (JInt 1000) (JInt 0) !! "deadline" = None
      /\ well_formed_required (JObj (Fixtures.trade (JInt 1000) (JInt 0))) = true
      /\ validateParams (Fixtures.post (JObj (Fixtures.trade (JInt 1000) (JInt 0)))) Mpost
         = Throw (new_Error
                    "params[chainId,amountIn,token0,token1,walletAddress,slippage] cannot be empty")).
Proof.
  split; [|repeat split; reflexivity].
  intros req method entries Hobj Hd Hw Hz. exists (params_of (JObj entries)).
  split; [|split].
  - rewrite <- Hobj in Hw, Hz |- *.
    apply validateParams_accepts, well_formed_required_accepts; assumption.
  - simpl. rewrite Hd. reflexivity.
  - pose proof (well_formed_required_accepts _ Hw Hz) as Ha.
    rewrite accepts_guards in Ha.
    apply andb_prop in Ha as [[[_ Hreq]%andb_prop _]%andb_prop _].
    apply negb_true_iff in Hreq. unfold required_missing in Hreq.
    repeat (apply orb_false_elim in Hreq as [Hreq ?]).
    assert (Hsome : forall name,
               truthy (get (JObj entries) name) = true ->
               Some (get (JObj entries) name) = entries !! name).
    { intros name. simpl. destruct (entries !! name); [reflexivity | discriminate]. }
    repeat split; apply Hsome; apply negb_false_iff; assumption.
Qed.

(** C10 at a POST body with the seven required entries, slippage 50, and
    nothing else. *)
Lemma validateParams_deadline_optional_witness :
  exists params,
    validateParams (Fixtures.post (JObj (Fixtures.trade (JInt 1000) (JInt 50)))) Mpost
    = Return params
    /\ deadline params = JUndefined
    /\ Some (chainId params) = Some (JInt 1)
    /\ Some (amount params) = Some (JInt 1000)
    /\ Some (walletAddress params) = Some Fixtures.wallet
    /\ Some (slippage params) = Some (JInt 50)
    /\ Some (token0 params) = Some Fixtures.usdc
    /\ Some (token1 params) = Some Fixtures.weth
    /\ Some (tradeType params) = Some (JStr "exactIn").
Proof.
  apply (proj1 validateParams_deadline_optional_unless_zero_slippage
           (Fixtures.post (JObj (Fixtures.trade (JInt 1000) (JInt 50)))) Mpost
           (Fixtures.trade (JInt 1000) (JInt 50)));
    reflexivity.
Defined.

(** * Properties of the routing core *)
Module RoutingFacts.
Import RoutingCore.

Lemma same_token_spec (a b : Token) :
  same_token a b = true
  <-> token_chain a = token_chain b /\ token_address a = token_address b.
Proof.
  unfold same_token, token_id. rewrite bool_decide_eq_true.
  split; [intros [= -> ->] | intros [-> ->]]; auto.
Qed.

Lemma findPaths_same_token graph (a b : Token) (hops paths : nat) :
  same_token a b = true -> findPaths graph a b hops paths = Err InvalidRequest.
Proof. unfold findPaths. intros ->. reflexivity. Qed.


Lemma finalize_in_time (route : Route) (request : TradeRequest) (now : Z) :
  now <= rq_deadline request ->
  exists quote, finalize route request now = Ok quote /\ quote_route quote = route.
Proof.
  intros H. unfold finalize.
  destruct (Z.ltb_spec (rq_deadline request) now) as [Hlt|_]; [lia|].
  eexists. split; reflexivity.
Qed.

(** C4: a request whose input and output token have the same address on the
    same chain makes computeRoute fail with InvalidRequest, at the path
    finder, before any simulation; it never yields a Quote. *)
Theorem computeRoute_same_token_invalid
    (optimize : list Path -> Qc -> TradeType -> Result Route)
    (registry : Z -> list Pool) (config : Config) (clock : Clock)
    (request : TradeRequest) :
  token_chain (rq_inputToken request) = token_chain (rq_outputToken request) ->
  token_address (rq_inputToken request) = token_address (rq_outputToken request) ->
  computeRoute optimize registry config clock request
  = ([StGraph; StPaths], Err InvalidRequest).
Proof.
  intros Hc Ha. unfold computeRoute.
  rewrite findPaths_same_token; [reflexivity|].
  apply same_token_spec. auto.
Qed.

(** C4 at a request that swaps USDC for USDC. *)
Lemma computeRoute_same_token_invalid_witness :
  computeRoute Fixtures.first_path_at_par Fixtures.registry Fixtures.config
    (mkClock 100 110) (Fixtures.request Fixtures.USDC Fixtures.USDC 200)
  = ([StGraph; StPaths], Err InvalidRequest).
Proof.
  apply (computeRoute_same_token_invalid
           Fixtures.first_path_at_par Fixtures.registry Fixtures.config
           (mkClock 100 110) (Fixtures.request Fixtures.USDC Fixtures.USDC 200));
    reflexivity.
Defined.




End RoutingFacts.

(** * Further properties of the request layer *)

(** ** The shape of every run of the handler *)

Lemma handleError_run (res : NextApiResponse) (env : ProcessEnv) (error : Thrown) :
  exists status payload,
    handleError res env error
    = ([EvStatus status; EvJson (JObj payload)],
       match send_error res status with
       | Some refusal => Throw refusal
       | None => Return tt
       end)
    /\ status = match error with
                | ErrorInstance e => nullish (err_status e) (JInt 500)
                | NonError _ => JInt 500
                end.
Proof.
  destruct error as [apiError|v].
  - unfold handleError.
    destruct (decide (NODE_ENV env = Some "development"));
      eexists _, _; rewrite send_json_run; split; reflexivity.
  - eexists _, _; unfold handleError; rewrite send_json_run; split; reflexivity.
Qed.

Lemma handler_shape (res : NextApiResponse)
    (getRoute : ParamsOptions -> Completion JsValue)
    (env : ProcessEnv) (req : NextApiRequest) :
  (req_method req = Some "OPTIONS"
   /\ handler res getRoute env req
      = (cors_trace env ++ [EvStatus (JInt 204); EvEnd], Return tt))
  \/ (req_method req <> Some "OPTIONS"
      /\ strict_eq_string (debug_of req) "true" = true
      /\ handler res getRoute env req
         = (cors_trace env ++ [EvStatus (JInt 200); EvJson (debug_body env req)],
            Return tt))
  \/ (req_method req <> Some "OPTIONS"
      /\ strict_eq_string (debug_of req) "true" = false
      /\ exists e status payload completion,
          validateParams req (method_of req) = Throw e
          /\ handleError res env e
             = ([EvStatus status; EvJson (JObj payload)], completion)
          /\ handler res getRoute env req
             = (cors_trace env ++ [ EvValidateParams (method_of req);
                                    EvStatus status; EvJson (JObj payload) ],
                completion))
  \/ (req_method req <> Some "OPTIONS"
      /\ strict_eq_string (debug_of req) "true" = false
      /\ exists params e status payload completion,
          validateParams req (method_of req) = Return params
          /\ getRoute params = Throw e
          /\ handleError res env e
             = ([EvStatus status; EvJson (JObj payload)], completion)
          /\ handler res getRoute env req
             = (cors_trace env ++ [ EvValidateParams (method_of req);
                                    EvGetRoute params;
                                    EvStatus status; EvJson (JObj payload) ],
                completion))
  \/ (req_method req <> Some "OPTIONS"
      /\ strict_eq_string (debug_of req) "true" = false
      /\ exists params data,
          validateParams req (method_of req) = Return params
          /\ getRoute params = Return data
          /\ handler res getRoute env req
             = (cors_trace env ++ [ EvValidateParams (method_of req);
                                    EvGetRoute params;
                                    EvStatus (JInt 200);
                                    EvJson (success_body data) ],
                Return tt)).
Proof.
  destruct (handler_cases req) as [Ho | [[Ho Hd] | [Ho Hd]]].
  - left. split; [exact Ho | exact (handler_options res getRoute env req Ho)].
  - right; left. repeat split; [exact Ho | exact Hd |].
    exact (handler_debug res getRoute env req Ho Hd).
  - right; right. rewrite (handler_validates res getRoute env req Ho Hd).
    destruct (validateParams req (method_of req)) as [params|e].
    + right. destruct (getRoute params) as [data|e] eqn:Hg.
      * right. repeat split; [exact Ho | exact Hd |].
        exists params, data. auto.
      * left. repeat split; [exact Ho | exact Hd |].
        destruct (handleError_run res env e) as (status & payload & He & _).
        eexists params, e, status, payload, _. rewrite He. auto.
    + left. repeat split; [exact Ho | exact Hd |].
      destruct (handleError_run res env e) as (status & payload & He & _).
      eexists e, status, payload, _. rewrite He. auto.
Qed.

(** X2: every run sets the same four CORS headers, before anything else and
    nothing after them: credentials allowed, the origin taken from
    NEXT_PUBLIC_ALLOWED_ORIGIN or '*' when that is unset or empty, the five
    methods and the three request headers. This holds for failed and debug
    requests alike. *)
Theorem handler_sets_cors_headers_first
    (res : NextApiResponse)
    (getRoute : ParamsOptions -> Completion JsValue)
    (env : ProcessEnv) (req : NextApiRequest) :
  exists rest,
    fst (handler res getRoute env req)
    = [ EvSetHeader "Access-Control-Allow-Credentials" "true";
        EvSetHeader "Access-Control-Allow-Origin"
          (match NEXT_PUBLIC_ALLOWED_ORIGIN env with
           | Some o => if decide (o = "") then "*" else o
           | None => "*"
           end);
        EvSetHeader "Access-Control-Allow-Methods" "GET, POST, PUT, DELETE, OPTIONS";
        EvSetHeader "Access-Control-Allow-Headers"
          "Content-Type, Authorization, X-Cron-Token" ] ++ rest
    /\ headers_of rest = [].
Proof.
  assert (origin_of env
          = match NEXT_PUBLIC_ALLOWED_ORIGIN env with
            | Some o => if decide (o = "") then "*" else o
            | None => "*"
            end) as Ho.
  { unfold origin_of. destruct (NEXT_PUBLIC_ALLOWED_ORIGIN env) as [o|]; [|reflexivity].
    destruct (decide (o = "")) as [->|Hne]; [reflexivity|].
    destruct (String.eqb_spec o ""); [contradiction | reflexivity]. }
  rewrite <- Ho.
  destruct (handler_shape res getRoute env req)
    as [[_ ->] | [(_ & _ & ->) | [(_ & _ & e & st & pl & c & _ & _ & ->)
        | [(_ & _ & p & e & st & pl & c & _ & _ & _ & ->)
          | (_ & _ & p & d & _ & _ & ->)]]]];
    eexists; (split; [reflexivity|]); reflexivity.
Qed.

(** ** The branches of the handler *)

(** X3: a preflight request (method OPTIONS) is answered 204 with an empty
    body and nothing else happens: no validation, no route computation, and
    no debug output even when the query says [debug=true]. *)
Theorem handler_preflight
    (res : NextApiResponse)
    (getRoute : ParamsOptions -> Completion JsValue)
    (env : ProcessEnv) (req : NextApiRequest) :
  req_method req = Some "OPTIONS" ->
  response_of (fst (handler res getRoute env req)) = [EvStatus (JInt 204); EvEnd]
  /\ invokes_validateParams (fst (handler res getRoute env req)) = false
  /\ getRoute_calls (fst (handler res getRoute env req)) = [].
Proof.
  intros Ho. rewrite (handler_options res getRoute env req Ho).
  repeat split; reflexivity.
Qed.

(** X3 at an OPTIONS request that carries [?debug=true] and a trade. *)
Lemma handler_preflight_witness :
  response_of (fst (handler Node.response Fixtures.getRoute_empty Fixtures.production Cases.preflight))
  = [EvStatus (JInt 204); EvEnd]
  /\ invokes_validateParams
       (fst (handler Node.response Fixtures.getRoute_empty Fixtures.production Cases.preflight))
     = false
  /\ getRoute_calls
       (fst (handler Node.response Fixtures.getRoute_empty Fixtures.production Cases.preflight))
     = [].
Proof.
  apply (handler_preflight Node.response Fixtures.getRoute_empty Fixtures.production Cases.preflight).
  reflexivity.
Defined.

Lemma validateParams_return_accepts (req : NextApiRequest) (method : Method)
    (params : ParamsOptions) :
  validateParams req method = Return params ->
  accepts (paramsObj_of req method) = true
  /\ params = params_of (paramsObj_of req method).
Proof.
  intros H. destruct (accepts (paramsObj_of req method)) eqn:Ha.
  - rewrite (validateParams_accepts req method Ha) in H.
    injection H as <-. auto.
  - destruct (validateParams_rejects req method Ha) as (msg & [E|E] & _);
      rewrite E in H; discriminate.
Qed.

(** X4: when the request is neither a preflight nor a debug request, its
    parameters pass validation and the route computation resolves to [data],
    the handler calls getRoute exactly once, with the validated parameters,
    and answers 200 with [{code: 200, data, message: 'success'}]. *)
Theorem handler_success
    (res : NextApiResponse)
    (getRoute : ParamsOptions -> Completion JsValue)
    (env : ProcessEnv) (req : NextApiRequest) (data : JsValue) :
  req_method req <> Some "OPTIONS" ->
  strict_eq_string (debug_of req) "true" = false ->
  accepts (paramsObj_of req (method_of req)) = true ->
  getRoute (params_of (paramsObj_of req (method_of req))) = Return data ->
  response_of (fst (handler res getRoute env req))
  = [ EvStatus (JInt 200);
      EvJson (JObj {[ "code" := JInt 200; "data" := data;
                      "message" := JStr "success" ]}) ]
  /\ getRoute_calls (fst (handler res getRoute env req))
     = [params_of (paramsObj_of req (method_of req))].
Proof.
  intros Ho Hd Ha Hg.
  rewrite (handler_validates res getRoute env req Ho Hd).
  rewrite (validateParams_accepts req (method_of req) Ha), Hg.
  split; reflexivity.
Qed.

(** X4 at the posted sample trade. *)
Lemma handler_success_witness :
  response_of (fst (handler Node.response Fixtures.getRoute_empty Fixtures.production Cases.trade_post))
  = [ EvStatus (JInt 200);
      EvJson (JObj {[ "code" := JInt 200; "data" := JObj ∅;
                      "message" := JStr "success" ]}) ]
  /\ getRoute_calls
       (fst (handler Node.response Fixtures.getRoute_empty Fixtures.production Cases.trade_post))
     = [params_of (paramsObj_of Cases.trade_post (method_of Cases.trade_post))].
Proof.
  apply (handler_success Node.response Fixtures.getRoute_empty Fixtures.production
           Cases.trade_post (JObj ∅)).
  - discriminate.
  - reflexivity.
  - vm_compute. reflexivity.
  - reflexivity.
Defined.



(** X6: the route computation only ever sees validated parameters. In every
    run getRoute is called at most once, and when it is called the request is
    neither a preflight nor a debug request, its parameter object passes
    every guard of validateParams, and the argument is the ParamsOptions
    built from that object. *)
Theorem getRoute_only_sees_validated_params
    (res : NextApiResponse)
    (getRoute : ParamsOptions -> Completion JsValue)
    (env : ProcessEnv) (req : NextApiRequest) :
  getRoute_calls (fst (handler res getRoute env req)) = []
  \/ (req_method req <> Some "OPTIONS"
      /\ req_query req !! "debug" <> Some (JStr "true")
      /\ accepts (paramsObj_of req (method_of req)) = true
      /\ getRoute_calls (fst (handler res getRoute env req))
         = [params_of (paramsObj_of req (method_of req))]).
Proof.
  assert (forall q, strict_eq_string (debug_of req) "true" = false ->
                    q = req_query req -> q !! "debug" <> Some (JStr "true")) as Hq.
  { intros q Hd -> Hl. unfold debug_of in Hd. rewrite Hl in Hd. discriminate. }
  destruct (handler_shape res getRoute env req)
    as [[_ ->] | [(_ & _ & ->) | [(_ & _ & e & st & pl & c & _ & _ & ->)
        | [(Ho & Hd & p & e & st & pl & c & Hv & _ & _ & ->)
          | (Ho & Hd & p & d & Hv & _ & ->)]]]];
    try (left; reflexivity);
    right; destruct (validateParams_return_accepts _ _ _ Hv) as [Ha ->];
    repeat split; eauto.
Qed.

Lemma validateParams_throws_one_of (req : NextApiRequest) (method : Method) :
  accepts (paramsObj_of req method) = false ->
  exists name msg,
    validateParams req method = Throw (ErrorInstance (new_Error_named name msg))
    /\ In msg validation_messages.
Proof.
  rewrite accepts_guards. unfold validateParams, validation_messages. intros H.
  destruct (truthy (paramsObj_of req method)); simpl in *.
  2: { exists "Error", msg_params_empty. split; [reflexivity | simpl; auto]. }
  destruct (required_missing _); simpl in *.
  { exists "Error", msg_required_empty. split; [reflexivity | simpl; auto]. }
  destruct (token_missing _); simpl in *.
  { exists "Error", msg_token_empty. split; [reflexivity | simpl; auto]. }
  pose proof (tradeType_rejected_loosely (get (paramsObj_of req method) "tradeType")) as Ht.
  destruct (tradeType_rejected _) as [b|e].
  - rewrite H in Ht. subst b.
    exists "Error", msg_tradeType. split; [reflexivity | simpl; auto].
  - destruct Ht as [_ ->].
    exists "TypeError", msg_to_primitive. split; [reflexivity | simpl; auto 6].
Qed.

Lemma validation_messages_non_empty (msg : string) :
  In msg validation_messages -> msg <> "".
Proof.
  unfold validation_messages. simpl.
  intros [<-|[<-|[<-|[<-|[<-|[]]]]]]; discriminate.
Qed.


(** X1 at a well-formed trade whose route computation fails with status 0:
    one answer is attempted, and Node's RangeError leaves the handler. *)
Lemma handler_status_zero_escapes :
  response_of
    (fst (handler Node.response Cases.getRoute_status_zero Fixtures.production
            Cases.trade_post))
  = [ EvStatus (JInt 0);
      EvJson (JObj {[ "code" := JInt 0; "message" := JStr "upstream unavailable" ]}) ]
  /\ snd (handler Node.response Cases.getRoute_status_zero Fixtures.production
            Cases.trade_post)
     = Throw (Node.invalid_status_code (JInt 0)).
Proof. split; reflexivity. Qed.

(** X7: every validation failure is answered as a server error. When a
    request that is neither a preflight nor a debug request fails any guard
    of validateParams, the response is status 500 with body code 500 and, as
    message, the text of the guard that failed (one of five); getRoute is not
    called. *)
Theorem handler_answers_500_on_invalid_params
    (res : NextApiResponse)
    (getRoute : ParamsOptions -> Completion JsValue)
    (env : ProcessEnv) (req : NextApiRequest) :
  req_method req <> Some "OPTIONS" ->
  strict_eq_string (debug_of req) "true" = false ->
  accepts (paramsObj_of req (method_of req)) = false ->
  exists msg payload,
    In msg validation_messages
    /\ response_of (fst (handler res getRoute env req))
       = [EvStatus (JInt 500); EvJson (JObj payload)]
    /\ payload !! "code" = Some (JInt 500)
    /\ payload !! "message" = Some (JStr msg)
    /\ getRoute_calls (fst (handler res getRoute env req)) = [].
Proof.
  intros Ho Hd Ha.
  destruct (validateParams_throws_one_of req (method_of req) Ha)
    as (name & msg & Hv & Hin).
  destruct (thrown_validation_trace res getRoute env req name msg Ho Hd Hv
              (validation_messages_non_empty msg Hin))
    as (payload & -> & Hc & Hm).
  exists msg, payload. repeat split; auto.
Qed.

(** X7 at the sample trade sent as a GET query string. *)
Lemma handler_answers_500_on_invalid_params_witness :
  exists msg payload,
    In msg validation_messages
    /\ response_of (fst (handler Node.response Fixtures.getRoute_empty Fixtures.production
                           Cases.trade_get))
       = [EvStatus (JInt 500); EvJson (JObj payload)]
    /\ payload !! "code" = Some (JInt 500)
    /\ payload !! "message" = Some (JStr msg)
    /\ getRoute_calls (fst (handler Node.response Fixtures.getRoute_empty Fixtures.production
                              Cases.trade_get))
       = [].
Proof.
  apply (handler_answers_500_on_invalid_params
           Node.response Fixtures.getRoute_empty Fixtures.production Cases.trade_get).
  - discriminate.
  - reflexivity.
  - vm_compute. reflexivity.
Defined.

(** X8: the debug bypass is taken for the string 'true' and nothing else.
    For a request that is not a preflight, validateParams is skipped if and
    only if the query's debug entry is exactly the string 'true'; any other
    value ('TRUE', '1', a repeated parameter giving ['true','true'], or no
    entry) leads to validation. *)
Theorem handler_skips_validation_iff_debug_true
    (res : NextApiResponse)
    (getRoute : ParamsOptions -> Completion JsValue)
    (env : ProcessEnv) (req : NextApiRequest) :
  req_method req <> Some "OPTIONS" ->
  invokes_validateParams (fst (handler res getRoute env req)) = false
  <-> req_query req !! "debug" = Some (JStr "true").
Proof.
  intros Ho.
  assert (strict_eq_string (debug_of req) "true" = true
          <-> req_query req !! "debug" = Some (JStr "true")) as Hiff.
  { unfold debug_of. split.
    - destruct (req_query req !! "debug") as [[| | | |s| |]|]; simpl; try discriminate.
      intros ->%String.eqb_eq. reflexivity.
    - intros ->. reflexivity. }
  destruct (strict_eq_string (debug_of req) "true") eqn:Hd.
  - rewrite (handler_debug res getRoute env req Ho Hd).
    split; [intros _; apply Hiff; reflexivity | reflexivity].
  - rewrite (handler_validates res getRoute env req Ho Hd).
    split.
    + destruct (validateParams req (method_of req)) as [p|e];
        [destruct (getRoute p)|]; simpl; discriminate.
    + intros Hq. apply Hiff in Hq. discriminate.
Qed.

(** X8 at the posted sample trade, which has no debug entry. *)
Lemma handler_skips_validation_iff_debug_true_witness :
  invokes_validateParams
    (fst (handler Node.response Fixtures.getRoute_empty Fixtures.production Cases.trade_post))
  = false
  <-> req_query Cases.trade_post !! "debug" = Some (JStr "true").
Proof.
  apply (handler_skips_validation_iff_debug_true
           Node.response Fixtures.getRoute_empty Fixtures.production Cases.trade_post).
  discriminate.
Defined.

(** ** Which part of the request is read *)

Lemma handler_ext (res : NextApiResponse)
    (getRoute : ParamsOptions -> Completion JsValue)
    (env : ProcessEnv) (req req' : NextApiRequest) :
  req_method req = req_method req' ->
  req_query req !! "debug" = req_query req' !! "debug" ->
  req_headers req = req_headers req' ->
  validateParams req (method_of req) = validateParams req' (method_of req') ->
  handler res getRoute env req = handler res getRoute env req'.
Proof.
  intros Hm Hq Hh Hv.
  assert (method_of req = method_of req') as Hmo.
  { unfold method_of. rewrite Hm. reflexivity. }
  assert (debug_of req = debug_of req') as Hd.
  { unfold debug_of. rewrite Hq. reflexivity. }
  assert (debug_body env req = debug_body env req') as Hb.
  { unfold debug_body. rewrite Hh. reflexivity. }
  unfold handler. rewrite Hm, Hd, Hb, Hv, Hmo. reflexivity.
Qed.

(** X9: a GET request is read from its query only: replacing the body of a
    GET request by anything else changes nothing of what the handler does. *)
Theorem handler_get_ignores_body
    (res : NextApiResponse)
    (getRoute : ParamsOptions -> Completion JsValue)
    (env : ProcessEnv) (req : NextApiRequest) (body : JsValue) :
  req_method req = Some "GET" ->
  handler res getRoute env (with_body req body) = handler res getRoute env req.
Proof.
  intros Hm. apply handler_ext; try reflexivity.
  unfold method_of. simpl. rewrite Hm.
  destruct (decide (Some "GET" = Some "GET")); [reflexivity | contradiction].
Qed.

(** X9 at the sample GET request, given the sample trade as a body. *)
Lemma handler_get_ignores_body_witness :
  handler Node.response Fixtures.getRoute_empty Fixtures.production
    (with_body Cases.trade_get (JObj (Fixtures.trade (JInt 1000) (JInt 50))))
  = handler Node.response Fixtures.getRoute_empty Fixtures.production Cases.trade_get.
Proof.
  apply (handler_get_ignores_body Node.response Fixtures.getRoute_empty Fixtures.production
           Cases.trade_get (JObj (Fixtures.trade (JInt 1000) (JInt 50)))).
  reflexivity.
Defined.

(** X10: a request of any other method (POST, PUT, DELETE, a lower-case
    'get', no method at all) is read from its body: of its query only the
    debug entry matters, and replacing the rest changes nothing of what the
    handler does. *)
Theorem handler_non_get_ignores_query
    (res : NextApiResponse)
    (getRoute : ParamsOptions -> Completion JsValue)
    (env : ProcessEnv) (req : NextApiRequest) (query : gmap string JsValue) :
  req_method req <> Some "GET" ->
  query !! "debug" = req_query req !! "debug" ->
  handler res getRoute env (with_query req query) = handler res getRoute env req.
Proof.
  intros Hm Hq. apply handler_ext; try reflexivity; [exact Hq|].
  unfold method_of. simpl.
  destruct (decide (req_method req = Some "GET")); [contradiction | reflexivity].
Qed.

(** X10 at the posted sample trade, given the sample GET query. *)
Lemma handler_non_get_ignores_query_witness :
  handler Node.response Fixtures.getRoute_empty Fixtures.production
    (with_query Cases.trade_post (req_query Cases.trade_get))
  = handler Node.response Fixtures.getRoute_empty Fixtures.production Cases.trade_post.
Proof.
  apply (handler_non_get_ignores_query Node.response Fixtures.getRoute_empty Fixtures.production
           Cases.trade_post (req_query Cases.trade_get)).
  - discriminate.
  - reflexivity.
Defined.

(** ** Parameter objects that can never pass *)

Lemma get_query_value (query : gmap string JsValue) (name field : string) :
  flat_query query -> get (get (JObj query) name) field = JUndefined.
Proof.
  intros Hf. simpl. destruct (query !! name) as [v|] eqn:Hl; [|reflexivity].
  apply Hf in Hl. destruct v; simpl in *; congruence.
Qed.

(** X11: a query string can never carry a valid trade. A query value is a
    string or an array of strings, so [token0.address] is undefined whatever
    the query holds: for a GET request validateParams always throws, either
    'params[...] cannot be empty' or 'token(addrss,decimals) cannot be
    empty'. *)
Theorem validateParams_rejects_every_query
    (req : NextApiRequest) :
  flat_query (req_query req) ->
  validateParams req Mget = Throw (new_Error msg_required_empty)
  \/ validateParams req Mget = Throw (new_Error msg_token_empty).
Proof.
  intros Hf. unfold validateParams. simpl.
  destruct (required_missing (JObj (req_query req))); [left; reflexivity|].
  right. unfold token_missing.
  rewrite (get_query_value (req_query req) "token0" "address" Hf).
  reflexivity.
Qed.

(** X11 at the sample trade sent as a query string. *)
Lemma validateParams_rejects_every_query_witness :
  validateParams Cases.trade_get Mget = Throw (new_Error msg_required_empty)
  \/ validateParams Cases.trade_get Mget = Throw (new_Error msg_token_empty).
Proof.
  apply (validateParams_rejects_every_query Cases.trade_get).
  intros k v Hl. simpl in Hl.
  repeat (apply lookup_insert_Some in Hl as [[_ <-]|[_ Hl]]; [reflexivity|]).
  apply lookup_singleton_Some in Hl as [_ <-]. reflexivity.
Defined.

(** X12: a request without a usable body. For a request read from its body,
    an absent body (undefined or null) is treated as the empty object and is
    answered 'params[...] cannot be empty'; a body that is falsy otherwise
    (false, 0, NaN, the empty string) is answered 'params cannot be
    empty'. *)
Theorem validateParams_without_body (req : NextApiRequest) :
  truthy (req_body req) = false ->
  validateParams req Mpost
  = Throw (new_Error (if present (req_body req)
                      then msg_params_empty else msg_required_empty)).
Proof.
  unfold validateParams. simpl.
  destruct (req_body req) as [| |b|n|s| |]; simpl; try discriminate;
    try reflexivity.
  - intros ->. reflexivity.
  - destruct n; simpl; try discriminate; reflexivity.
  - intros ->%negb_false_iff. reflexivity.
Qed.

(** X12 at a POST request with no body. *)
Lemma validateParams_without_body_witness :
  validateParams (Fixtures.post JUndefined) Mpost
  = Throw (new_Error (if present (req_body (Fixtures.post JUndefined))
                      then msg_params_empty else msg_required_empty)).
Proof.
  apply (validateParams_without_body (Fixtures.post JUndefined)).
  reflexivity.
Defined.

(** X27: a body that is not an object carries no parameters. When the body
    of a request read from its body is truthy but not an object (a string,
    as when the JSON is sent as text; a number; true; an array),
    validateParams throws 'params[...] cannot be empty'. *)
Theorem validateParams_rejects_non_object_body (req : NextApiRequest) :
  truthy (req_body req) = true ->
  (forall entries, req_body req <> JObj entries) ->
  validateParams req Mpost = Throw (new_Error msg_required_empty).
Proof.
  intros Ht Hn. unfold validateParams. simpl.
  destruct (req_body req) as [| |b|n|s|l|m]; simpl in *; try discriminate.
  - rewrite Ht. reflexivity.
  - rewrite Ht. reflexivity.
  - rewrite Ht. reflexivity.
  - reflexivity.
  - exfalso. exact (Hn m eq_refl).
Qed.

(** X27 at a body that arrived as the text of the JSON. *)
Lemma validateParams_rejects_non_object_body_witness :
  validateParams (Fixtures.post (JStr "{ chainId: 1 }")) Mpost
  = Throw (new_Error msg_required_empty).
Proof.
  apply (validateParams_rejects_non_object_body
           (Fixtures.post (JStr "{ chainId: 1 }"))).
  - reflexivity.
  - discriminate.
Defined.

(** ** What validateParams reads and what it passes on *)

Lemma lookup_insert_param (o : gmap string JsValue) (k name : string) (v : JsValue) :
  k <> name -> get (JObj (<[k := v]> o)) name = get (JObj o) name.
Proof. intros Hne. simpl. rewrite lookup_insert_ne by exact Hne. reflexivity. Qed.

(** X13: validateParams reads eight entries and no other: adding or
    replacing any entry of another name in a posted parameter object changes
    neither whether it is accepted, nor the error thrown, nor the
    ParamsOptions returned. *)
Theorem validateParams_ignores_other_entries
    (req : NextApiRequest) (o : gmap string JsValue) (k : string) (v : JsValue) :
  ~ In k param_keys ->
  validateParams (with_body req (JObj (<[k := v]> o))) Mpost
  = validateParams (with_body req (JObj o)) Mpost.
Proof.
  intros Hk.
  assert (forall name, In name param_keys ->
                       get (JObj (<[k := v]> o)) name = get (JObj o) name) as Hg.
  { intros name Hin. apply lookup_insert_param. intros ->. contradiction. }
  unfold validateParams, required_missing, token_missing, params_of, paramsObj_of,
    with_body, nullish, req_body.
  rewrite !(Hg "chainId"), !(Hg "amount"), !(Hg "walletAddress"),
    !(Hg "slippage"), !(Hg "token0"), !(Hg "token1"), !(Hg "tradeType"),
    !(Hg "deadline") by (unfold param_keys; simpl; auto 10).
  reflexivity.
Qed.

(** X13 at the sample trade with an added [debug] entry. *)
Lemma validateParams_ignores_other_entries_witness :
  validateParams
    (with_body Cases.trade_post
       (JObj (<["debug" := JStr "true"]> (Fixtures.trade (JInt 1000) (JInt 50)))))
    Mpost
  = validateParams
      (with_body Cases.trade_post (JObj (Fixtures.trade (JInt 1000) (JInt 50))))
      Mpost.
Proof.
  apply (validateParams_ignores_other_entries Cases.trade_post
           (Fixtures.trade (JInt 1000) (JInt 50)) "debug" (JStr "true")).
  unfold param_keys. simpl.
  intros [H|[H|[H|[H|[H|[H|[H|[H|[]]]]]]]]]; discriminate.
Defined.

Lemma guards_agree (o o' : gmap string JsValue) :
  (forall name, name <> "deadline" -> get (JObj o') name = get (JObj o) name) ->
  required_missing (JObj o') = required_missing (JObj o)
  /\ token_missing (JObj o') = token_missing (JObj o)
  /\ get (JObj o') "tradeType" = get (JObj o) "tradeType"
  /\ set_deadline (params_of (JObj o')) JUndefined
     = set_deadline (params_of (JObj o)) JUndefined.
Proof.
  intros Hg. unfold required_missing, token_missing, params_of, set_deadline.
  cbn [chainId amount walletAddress slippage token0 token1 tradeType deadline].
  rewrite !(Hg "chainId"), !(Hg "amount"), !(Hg "walletAddress"),
    !(Hg "slippage"), !(Hg "token0"), !(Hg "token1"), !(Hg "tradeType")
    by discriminate.
  repeat split; reflexivity.
Qed.

(** X14: the deadline is passed on unexamined. Whatever value a posted
    parameter object carries as deadline (a timestamp in the past, a string,
    null), validateParams accepts or rejects the object exactly as it does
    without that entry, and on acceptance returns the value as it came. *)
Theorem validateParams_passes_deadline_on
    (req : NextApiRequest) (o : gmap string JsValue) (v : JsValue) :
  validateParams (with_body req (JObj (<["deadline" := v]> o))) Mpost
  = match validateParams (with_body req (JObj (delete "deadline" o))) Mpost with
    | Return params => Return (set_deadline params v)
    | Throw e => Throw e
    end.
Proof.
  destruct (guards_agree (delete "deadline" o) (<["deadline" := v]> o))
    as (Hr & Ht & Htt & Hp).
  { intros name Hne. simpl.
    rewrite lookup_insert_ne, lookup_delete_ne by congruence. reflexivity. }
  unfold validateParams, paramsObj_of, with_body, nullish, req_body.
  rewrite Hr, Ht, Htt. clear Hr Ht Htt.
  change (negb (truthy (JObj (<["deadline" := v]> o)))) with false.
  change (negb (truthy (JObj (delete "deadline" o)))) with false.
  cbv iota.
  destruct (required_missing (JObj (delete "deadline" o))); [reflexivity|].
  destruct (token_missing (JObj (delete "deadline" o))); [reflexivity|].
  destruct (tradeType_rejected (get (JObj (delete "deadline" o)) "tradeType"))
    as [[|]|e]; try reflexivity.
  f_equal.
  assert (forall p w, set_deadline (set_deadline p JUndefined) w = set_deadline p w)
    as Hs by reflexivity.
  rewrite <- (Hs (params_of (JObj (delete "deadline" o))) v), <- Hp, Hs.
  unfold set_deadline, params_of.
  cbn [chainId amount walletAddress slippage token0 token1 tradeType deadline].
  f_equal. simpl. rewrite lookup_insert_eq. reflexivity.
Qed.

Lemma loose_eq_wrapped (t : JsValue) (lit : string) :
  match t with JStr _ | JArr _ | JObj _ => True | _ => False end ->
  loose_eq_string (JArr [t]) lit = loose_eq_string t lit.
Proof.
  destruct t as [| | | |s|l|m]; simpl; try contradiction; intros _.
  - reflexivity.
  - destruct ((fix join (l0 : list JsValue) : option string := _) l); reflexivity.
  - destruct (m !! "toString"); reflexivity.
Qed.

Lemma loosely_wrapped (t : JsValue) :
  loosely_exact_in_or_out t = true ->
  loosely_exact_in_or_out (JArr [t]) = true.
Proof.
  intros H.
  assert (match t with JStr _ | JArr _ | JObj _ => True | _ => False end) as Ht.
  { destruct t; try exact I; discriminate H. }
  unfold loosely_exact_in_or_out in *.
  rewrite !(loose_eq_wrapped t _ Ht). exact H.
Qed.

(** X15: validateParams does not require the trade type to be a string. A
    posted parameter object that is accepted is still accepted when its
    tradeType is wrapped in a one-element array (the loose [!=] converts the
    array to its only element), and the array, not the string, is what the
    returned ParamsOptions carries as tradeType. *)
Theorem validateParams_accepts_wrapped_tradeType
    (req : NextApiRequest) (o : gmap string JsValue) :
  accepts (JObj o) = true ->
  validateParams
    (with_body req (JObj (<["tradeType" := JArr [get (JObj o) "tradeType"]]> o)))
    Mpost
  = Return (set_tradeType (params_of (JObj o)) (JArr [get (JObj o) "tradeType"])).
Proof.
  intros Ha.
  set (t := get (JObj o) "tradeType") in *.
  assert (forall name, name <> "tradeType" ->
            get (JObj (<["tradeType" := JArr [t]]> o)) name = get (JObj o) name)
    as Hg.
  { intros name Hne. apply lookup_insert_param. congruence. }
  assert (get (JObj (<["tradeType" := JArr [t]]> o)) "tradeType" = JArr [t]) as Ht.
  { simpl. rewrite lookup_insert_eq. reflexivity. }
  assert (accepts (JObj (<["tradeType" := JArr [t]]> o)) = true) as Ha'.
  { revert Ha. unfold accepts.
    rewrite !(Hg "chainId"), !(Hg "amount"), !(Hg "walletAddress"),
      !(Hg "slippage"), !(Hg "token0"), !(Hg "token1") by discriminate.
    rewrite !Ht. fold t.
    intros H. repeat (apply andb_prop in H as [H ?]).
    repeat (apply andb_true_intro; split); try assumption; try reflexivity.
    apply loosely_wrapped. assumption. }
  rewrite validateParams_accepts by exact Ha'.
  unfold params_of, set_tradeType, paramsObj_of, with_body, nullish, req_body.
  cbn [chainId amount walletAddress slippage token0 token1 tradeType deadline].
  rewrite !(Hg "chainId"), !(Hg "amount"), !(Hg "walletAddress"),
    !(Hg "slippage"), !(Hg "token0"), !(Hg "token1"), !(Hg "deadline")
    by discriminate.
  rewrite Ht. reflexivity.
Qed.

(** X15 at the sample trade, whose tradeType becomes ['exactIn']. *)
Lemma validateParams_accepts_wrapped_tradeType_witness :
  validateParams
    (with_body Cases.trade_post
       (JObj (<["tradeType" :=
                  JArr [get (JObj (Fixtures.trade (JInt 1000) (JInt 50))) "tradeType"]]>
                (Fixtures.trade (JInt 1000) (JInt 50)))))
    Mpost
  = Return (set_tradeType (params_of (JObj (Fixtures.trade (JInt 1000) (JInt 50))))
              (JArr [get (JObj (Fixtures.trade (JInt 1000) (JInt 50))) "tradeType"])).
Proof.
  apply (validateParams_accepts_wrapped_tradeType Cases.trade_post
           (Fixtures.trade (JInt 1000) (JInt 50))).
  vm_compute. reflexivity.
Defined.

(** X16: a token with zero decimals cannot be traded. Whenever the decimals
    of token0 or of token1 is the number 0, validateParams throws one of its
    three emptiness errors, whatever else the parameter object holds. *)
Theorem validateParams_rejects_zero_decimals
    (req : NextApiRequest) (method : Method) :
  is_zero_number (get (get (paramsObj_of req method) "token0") "decimals") = true
  \/ is_zero_number (get (get (paramsObj_of req method) "token1") "decimals") = true ->
  validateParams req method = Throw (new_Error msg_params_empty)
  \/ validateParams req method = Throw (new_Error msg_required_empty)
  \/ validateParams req method = Throw (new_Error msg_token_empty).
Proof.
  intros Hz.
  assert (token_missing (paramsObj_of req method) = true) as Ht.
  { unfold token_missing.
    assert (forall v, is_zero_number v = true -> truthy v = false) as Hf.
    { intros [| | |[]| | |]; simpl; congruence. }
    destruct Hz as [Hz|Hz]; rewrite (Hf _ Hz); simpl;
      rewrite ?orb_true_r; reflexivity. }
  unfold validateParams.
  destruct (negb (truthy (paramsObj_of req method))); [auto|].
  destruct (required_missing (paramsObj_of req method)); [auto|].
  rewrite Ht. auto.
Qed.

(** X16 at the sample trade with a token0 of 0 decimals. *)
Lemma validateParams_rejects_zero_decimals_witness :
  let req :=
    Fixtures.post
      (JObj (<["token0" := JObj {[ "address" := JStr "0xA0b8"; "decimals" := JInt 0 ]}]>
               (Fixtures.trade (JInt 1000) (JInt 50)))) in
  validateParams req Mpost = Throw (new_Error msg_params_empty)
  \/ validateParams req Mpost = Throw (new_Error msg_required_empty)
  \/ validateParams req Mpost = Throw (new_Error msg_token_empty).
Proof.
  apply (validateParams_rejects_zero_decimals
           (Fixtures.post
              (JObj (<["token0" := JObj {[ "address" := JStr "0xA0b8";
                                           "decimals" := JInt 0 ]}]>
                       (Fixtures.trade (JInt 1000) (JInt 50)))))
           Mpost).
  left. reflexivity.
Defined.

(** ** What an error response discloses *)

(** X17: the stack of an Error reaches the client in development only. The
    object handleError passes to [.json(..)] for an Error holds code and
    message and, when NODE_ENV is 'development', a property [error] whose
    value is the stack, or the cause when the stack is falsy, or undefined
    when both are falsy. JSON leaves an undefined property out, so the JSON
    text made of the object has an error entry exactly when NODE_ENV is
    'development' and the stack or the cause is truthy. In every other
    environment the object is [{code, message}] and nothing more. *)
Theorem handleError_discloses_stack_in_development_only
    (res : NextApiResponse) (env : ProcessEnv) (apiError : ErrorObj) :
  exists payload,
    fst (handleError res env (ErrorInstance apiError))
    = [ EvStatus (nullish (err_status apiError) (JInt 500));
        EvJson (JObj payload) ]
    /\ payload !! "error"
       = (if decide (NODE_ENV env = Some "development")
          then Some (if truthy (err_stack apiError) then err_stack apiError
                     else if truthy (err_cause apiError) then err_cause apiError
                          else JUndefined)
          else None)
    /\ encoded_entry payload "error"
       = (if decide (NODE_ENV env = Some "development")
          then if truthy (err_stack apiError) then Some (err_stack apiError)
               else if truthy (err_cause apiError) then Some (err_cause apiError)
                    else None
          else None)
    /\ forall key, key <> "code" -> key <> "message" -> key <> "error" ->
                   payload !! key = None.
Proof.
  assert (Hkept : forall (other : gmap string JsValue) (v : JsValue),
             truthy v = true ->
             encoded_entry (<["error" := v]> other) "error" = Some v).
  { intros other v Hv. unfold encoded_entry. rewrite lookup_insert_eq.
    destruct v; try reflexivity; discriminate. }
  assert (Hdropped : forall other : gmap string JsValue,
             encoded_entry (<["error" := JUndefined]> other) "error" = None).
  { intros other. unfold encoded_entry. rewrite lookup_insert_eq. reflexivity. }
  unfold handleError. rewrite send_json_run.
  destruct (decide (NODE_ENV env = Some "development")).
  - eexists. split; [reflexivity|]. unfold js_or.
    destruct (truthy (err_stack apiError)) eqn:Hs;
      [|destruct (truthy (err_cause apiError)) eqn:Hc]; simpl; rewrite ?Hs, ?Hc.
    + split; [apply lookup_insert_eq|]. split; [apply Hkept, Hs|].
      intros key H1 H2 H3.
      rewrite lookup_insert_ne, lookup_insert_ne, lookup_singleton_ne by congruence.
      reflexivity.
    + split; [apply lookup_insert_eq|]. split; [apply Hkept, Hc|].
      intros key H1 H2 H3.
      rewrite lookup_insert_ne, lookup_insert_ne, lookup_singleton_ne by congruence.
      reflexivity.
    + split; [apply lookup_insert_eq|]. split; [apply Hdropped|].
      intros key H1 H2 H3.
      rewrite lookup_insert_ne, lookup_insert_ne, lookup_singleton_ne by congruence.
      reflexivity.
  - eexists. split; [reflexivity|]. split; [reflexivity|]. split; [reflexivity|].
    intros key H1 H2 H3.
    rewrite lookup_insert_ne, lookup_singleton_ne by congruence. reflexivity.
Qed.

(** * Properties of the health endpoint *)

(** X18: the health endpoint reports ok to GET and to nothing else. It
    always sends exactly one JSON body with the service name, the version and
    the current time; the status is 200 and the body says 'ok' if and only if
    the method is GET, and it is 405 with 'error' for every other method,
    OPTIONS and HEAD included. *)
Theorem health_ok_iff_get (now : string) (req : NextApiRequest) :
  exists status body,
    Health.handler now req = ([EvStatus status; EvJson (JObj body)], Return tt)
    /\ (status = JInt 200 <-> req_method req = Some "GET")
    /\ (status = JInt 405 <-> req_method req <> Some "GET")
    /\ (body !! "status" = Some (JStr "ok") <-> req_method req = Some "GET")
    /\ (body !! "status" = Some (JStr "error") <-> req_method req <> Some "GET")
    /\ body !! "timestamp" = Some (JStr now)
    /\ body !! "service" = Some (JStr "smart-order-router-api")
    /\ body !! "version" = Some (JStr "0.1.0").
Proof.
  unfold Health.handler.
  destruct (decide (req_method req <> Some "GET")) as [Hne|Heq].
  - eexists _, _. split; [reflexivity|].
    repeat split; try reflexivity; try (intros; assumption);
      try (intros H; discriminate H); try (intros H; contradiction).
  - assert (req_method req = Some "GET") as Hm.
    { destruct (decide (req_method req = Some "GET")); [assumption | contradiction]. }
    eexists _, _. split; [reflexivity|].
    repeat split; try reflexivity; try (intros; assumption);
      try (intros H; discriminate H); try (intros H; contradiction).
Qed.

(** * Properties of the deployment *)
Module DeploymentFacts.
Import Terraform.

Lemma map_nth_seq (l : list string) (d : string) :
  List.map (fun index => nth index l d) (seq 0 (length l)) = l.
Proof.
  induction l as [|x l IH]; [reflexivity|].
  simpl. f_equal. rewrite <- seq_shift, List.map_map. exact IH.
Qed.


(** X20: who may invoke the service. The members granted roles/run.invoker
    are allUsers alone when unauthenticated access is allowed, and exactly
    the authorized members, in order, when it is not; named members are
    therefore granted the role in prod only, and an environment other than
    prod that disallows unauthenticated access grants the role to nobody. *)
Theorem invokers_by_environment (var : Variables) (workspace : string) :
  invokers var workspace
  = (if allow_unauthenticated var workspace
     then ["allUsers"] else authorized_members var workspace)
  /\ (environment var workspace <> "prod" ->
      invokers var workspace
      = if dev_allow_unauthenticated var then ["allUsers"] else [])
  /\ length (invokers var workspace)
     = (public_invoker_count var workspace
        + authenticated_invoker_count var workspace)%nat.
Proof.
  assert (invokers var workspace
          = (if allow_unauthenticated var workspace
             then ["allUsers"] else authorized_members var workspace)) as Hi.
  { unfold invokers, public_invoker_count, authenticated_invoker_count.
    destruct (allow_unauthenticated var workspace); simpl; [reflexivity|].
    exact (map_nth_seq (authorized_members var workspace) ""). }
  split; [exact Hi|]. split.
  - intros H. rewrite Hi.
    unfold allow_unauthenticated, authorized_members.
    destruct (decide (environment var workspace = "prod")); [contradiction|].
    reflexivity.
  - unfold invokers. rewrite length_app, !length_map, !length_seq. reflexivity.
Qed.

End DeploymentFacts.

(** * Properties of the workspace helper *)
Module WorkspaceFacts.
Import Workspace.

Lemma main_switch (w : World) (args : list string) :
  nth 0 args "" = "switch" ->
  main w args = match switch w (nth 1 args "") with
                | (tr, inl tt) => (tr, 0%nat)
                | (tr, inr status) => (tr, status)
                end.
Proof. intros H. unfold main, dispatch. rewrite H. reflexivity. Qed.

Lemma main_import (w : World) (args : list string) :
  nth 0 args "" = "import" ->
  main w args = match import w (nth 1 args "") with
                | (tr, inl tt) => (tr, 0%nat)
                | (tr, inr status) => (tr, status)
                end.
Proof. intros H. unfold main, dispatch. rewrite H. reflexivity. Qed.

Lemma main_delete (w : World) (args : list string) :
  nth 0 args "" = "delete" ->
  main w args = match delete_workspace w (nth 1 args "") with
                | (tr, inl tt) => (tr, 0%nat)
                | (tr, inr status) => (tr, status)
                end.
Proof. intros H. unfold main, dispatch. rewrite H. reflexivity. Qed.

Lemma main_setup (w : World) (args : list string) :
  nth 0 args "" = "setup" ->
  main w args = match setup w with
                | (tr, inl tt) => (tr, 0%nat)
                | (tr, inr status) => (tr, status)
                end.
Proof. intros H. unfold main, dispatch. rewrite H. reflexivity. Qed.

(** X21: before [setup] nothing touches Terraform. While the directory
    .terraform is missing, every command but setup runs no terraform command
    at all: switch, list, current, import and delete end with status 1, and
    anything else prints the usage and ends with status 0. *)
Theorem no_terraform_before_setup (w : World) (args : list string) :
  initialized w = false ->
  nth 0 args "" <> "setup" ->
  commands (fst (main w args)) = []
  /\ (In (nth 0 args "") ["switch"; "list"; "current"; "import"; "delete"] ->
      snd (main w args) = 1%nat)
  /\ (~ In (nth 0 args "") ["switch"; "list"; "current"; "import"; "delete"] ->
      main w args = ([ShowUsage], 0%nat)).
Proof.
  intros Hi Hs. unfold main, dispatch.
  destruct (String.eqb_spec (nth 0 args "") "setup") as [|_]; [contradiction|].
  destruct (String.eqb_spec (nth 0 args "") "switch") as [E|N1].
  { unfold switch, require_environment, check_terraform_init. rewrite Hi.
    destruct (String.eqb (nth 1 args "") ""); simpl;
      (split; [reflexivity|]); (split; [reflexivity|]);
      intros H; exfalso; apply H; rewrite E; simpl; auto. }
  destruct (String.eqb_spec (nth 0 args "") "list") as [E|N2].
  { unfold list_workspaces, check_terraform_init. rewrite Hi. simpl.
    (split; [reflexivity|]); (split; [reflexivity|]).
    intros H; exfalso; apply H; rewrite E; simpl; auto. }
  destruct (String.eqb_spec (nth 0 args "") "current") as [E|N3].
  { unfold current, check_terraform_init. rewrite Hi. simpl.
    (split; [reflexivity|]); (split; [reflexivity|]).
    intros H; exfalso; apply H; rewrite E; simpl; auto. }
  destruct (String.eqb_spec (nth 0 args "") "import") as [E|N4].
  { unfold import, require_environment, check_terraform_init. rewrite Hi.
    destruct (String.eqb (nth 1 args "") ""); simpl;
      (split; [reflexivity|]); (split; [reflexivity|]);
      intros H; exfalso; apply H; rewrite E; simpl; auto 6. }
  destruct (String.eqb_spec (nth 0 args "") "delete") as [E|N5].
  { unfold delete_workspace, require_environment, check_terraform_init. rewrite Hi.
    destruct (String.eqb (nth 1 args "") ""); simpl;
      (split; [reflexivity|]); (split; [reflexivity|]);
      intros H; exfalso; apply H; rewrite E; simpl; auto 6. }
  simpl. split; [reflexivity|]. split; [|reflexivity].
  intros [H|[H|[H|[H|[H|[]]]]]]; congruence.
Qed.

(** X21 at [./workspace.sh switch dev] in a directory without .terraform. *)
Lemma no_terraform_before_setup_witness :
  let w := {| script := "./workspace.sh"; initialized := false;
              terraform := fun _ => 0%nat; shown_workspace := "default";
              tfvars := []; confirm := None |} in
  commands (fst (main w ["switch"; "dev"])) = []
  /\ (In (nth 0 ["switch"; "dev"] "") ["switch"; "list"; "current"; "import"; "delete"] ->
      snd (main w ["switch"; "dev"]) = 1%nat)
  /\ (~ In (nth 0 ["switch"; "dev"] "") ["switch"; "list"; "current"; "import"; "delete"] ->
      main w ["switch"; "dev"] = ([ShowUsage], 0%nat)).
Proof.
  apply (no_terraform_before_setup
           {| script := "./workspace.sh"; initialized := false;
              terraform := fun _ => 0%nat; shown_workspace := "default";
              tfvars := []; confirm := None |} ["switch"; "dev"]).
  - reflexivity.
  - discriminate.
Defined.

(** X22: switch and import act on dev and prod only. Given any other
    environment name, or none, both commands end with status 1 without
    running a single terraform command. *)
Theorem switch_and_import_check_the_environment (w : World) (args : list string) :
  nth 0 args "" = "switch" \/ nth 0 args "" = "import" ->
  nth 1 args "" <> "dev" ->
  nth 1 args "" <> "prod" ->
  commands (fst (main w args)) = [] /\ snd (main w args) = 1%nat.
Proof.
  intros Hc Hd Hp.
  assert (negb (String.eqb (nth 1 args "") "dev")
          && negb (String.eqb (nth 1 args "") "prod") = true) as Hg.
  { destruct (String.eqb_spec (nth 1 args "") "dev"); [contradiction|].
    destruct (String.eqb_spec (nth 1 args "") "prod"); [contradiction|].
    reflexivity. }
  destruct Hc as [Hc|Hc].
  - rewrite (main_switch w args Hc).
    unfold switch, require_environment, check_terraform_init, require_dev_or_prod.
    rewrite Hg.
    destruct (String.eqb (nth 1 args "") ""); [split; reflexivity|].
    destruct (initialized w); split; reflexivity.
  - rewrite (main_import w args Hc).
    unfold import, require_environment, check_terraform_init, require_dev_or_prod.
    rewrite Hg.
    destruct (String.eqb (nth 1 args "") ""); [split; reflexivity|].
    destruct (initialized w); split; reflexivity.
Qed.

(** X22 at [./workspace.sh import staging]. *)
Lemma switch_and_import_check_the_environment_witness :
  commands (fst (main (sample_world None) ["import"; "staging"])) = []
  /\ snd (main (sample_world None) ["import"; "staging"]) = 1%nat.
Proof.
  apply (switch_and_import_check_the_environment
           (sample_world None) ["import"; "staging"]).
  - right. reflexivity.
  - discriminate.
  - discriminate.
Defined.

(** X23: delete acts on the answer YES and on nothing else, and on any
    workspace name. Without the exact answer YES it runs no terraform
    command. With it, in an initialized directory and for a name that is
    not empty, it selects the default workspace; when that succeeds it
    deletes the workspace named, whether or not that name is dev or prod, and
    ends with the status of the delete; when the select fails the script
    ends there (set -e) with the status of the select, and deletes
    nothing. *)
Theorem delete_needs_confirmation (w : World) (args : list string) :
  nth 0 args "" = "delete" ->
  (confirm w <> Some "YES" -> commands (fst (main w args)) = [])
  /\ (confirm w = Some "YES" ->
      initialized w = true ->
      nth 1 args "" <> "" ->
      commands (fst (main w args))
      = (if Nat.eqb (terraform w ["workspace"; "select"; "default"]) 0
         then [ ["workspace"; "select"; "default"];
                ["workspace"; "delete"; nth 1 args ""] ]
         else [ ["workspace"; "select"; "default"] ])
      /\ snd (main w args)
         = (if Nat.eqb (terraform w ["workspace"; "select"; "default"]) 0
            then terraform w ["workspace"; "delete"; nth 1 args ""]
            else terraform w ["workspace"; "select"; "default"])).
Proof.
  intros Hc. rewrite (main_delete w args Hc).
  unfold delete_workspace, require_environment, check_terraform_init. split.
  - intros Hn.
    destruct (String.eqb (nth 1 args "") ""); [reflexivity|].
    destruct (initialized w); [|reflexivity].
    destruct (confirm w) as [answer|]; [|reflexivity].
    destruct (String.eqb_spec answer "YES") as [->|_]; [congruence | reflexivity].
  - intros Hy Hi He. rewrite Hy, Hi.
    destruct (String.eqb_spec (nth 1 args "") ""); [contradiction|].
    unfold run.
    destruct (terraform w ["workspace"; "select"; "default"]) as [|failed];
      [|split; reflexivity].
    simpl.
    destruct (terraform w ["workspace"; "delete"; nth 1 args ""]);
      split; reflexivity.
Qed.

(** X23 at [./workspace.sh delete default], answered YES. *)
Lemma delete_needs_confirmation_witness :
  (confirm (sample_world (Some "YES")) <> Some "YES" ->
   commands (fst (main (sample_world (Some "YES")) ["delete"; "default"])) = [])
  /\ (confirm (sample_world (Some "YES")) = Some "YES" ->
      initialized (sample_world (Some "YES")) = true ->
      nth 1 ["delete"; "default"] "" <> "" ->
      commands (fst (main (sample_world (Some "YES")) ["delete"; "default"]))
      = (if Nat.eqb
              (terraform (sample_world (Some "YES")) ["workspace"; "select"; "default"]) 0
         then [ ["workspace"; "select"; "default"];
                ["workspace"; "delete"; nth 1 ["delete"; "default"] ""] ]
         else [ ["workspace"; "select"; "default"] ])
      /\ snd (main (sample_world (Some "YES")) ["delete"; "default"])
         = (if Nat.eqb
                 (terraform (sample_world (Some "YES")) ["workspace"; "select"; "default"]) 0
            then terraform (sample_world (Some "YES"))
                   ["workspace"; "delete"; nth 1 ["delete"; "default"] ""]
            else terraform (sample_world (Some "YES"))
                   ["workspace"; "select"; "default"])).
Proof.
  apply (delete_needs_confirmation (sample_world (Some "YES")) ["delete"; "default"]).
  reflexivity.
Defined.

(** X24: setup ends as [terraform init] ends. It needs no initialized
    directory; when init fails nothing else is run and the script ends with
    init's status; when init succeeds the script creates dev and prod,
    selects default and ends with status 0, whether or not those three
    commands succeed (a workspace that already exists is not an error). *)
Theorem setup_ends_as_init_ends (w : World) (args : list string) :
  nth 0 args "" = "setup" ->
  snd (main w args) = terraform w ["init"]
  /\ commands (fst (main w args))
     = (if Nat.eqb (terraform w ["init"]) 0
        then [ ["init"]; ["workspace"; "new"; "dev"]; ["workspace"; "new"; "prod"];
               ["workspace"; "select"; "default"] ]
        else [ ["init"] ]).
Proof.
  intros Hc. rewrite (main_setup w args Hc).
  unfold setup, run, run_or.
  destruct (terraform w ["init"]) as [|n]; [|split; reflexivity].
  destruct (terraform w ["workspace"; "new"; "dev"]);
    destruct (terraform w ["workspace"; "new"; "prod"]);
    destruct (terraform w ["workspace"; "select"; "default"]);
    split; reflexivity.
Qed.

(** X24 at [./workspace.sh setup] where the workspaces already exist. *)
Lemma setup_ends_as_init_ends_witness :
  let w := {| script := "./workspace.sh"; initialized := false;
              terraform := fun args =>
                if bool_decide (args = ["init"]) then 0%nat else 1%nat;
              shown_workspace := "default"; tfvars := []; confirm := None |} in
  snd (main w ["setup"]) = terraform w ["init"]
  /\ commands (fst (main w ["setup"]))
     = (if Nat.eqb (terraform w ["init"]) 0
        then [ ["init"]; ["workspace"; "new"; "dev"]; ["workspace"; "new"; "prod"];
               ["workspace"; "select"; "default"] ]
        else [ ["init"] ]).
Proof.
  apply (setup_ends_as_init_ends
           {| script := "./workspace.sh"; initialized := false;
              terraform := fun args =>
                if bool_decide (args = ["init"]) then 0%nat else 1%nat;
              shown_workspace := "default"; tfvars := []; confirm := None |}
           ["setup"]).
  reflexivity.
Defined.

(** X25: import targets the service Terraform manages. For dev or prod, in
    an initialized directory where the workspace can be selected, the script
    selects the workspace and imports the Cloud Run resource under the
    project and region read from terraform.tfvars and under the very service
    name the Terraform configuration computes for that workspace when
    var.environment is not set. *)
Theorem import_targets_the_managed_service
    (w : World) (args : list string) (var : Terraform.Variables) :
  nth 0 args "" = "import" ->
  nth 1 args "" = "dev" \/ nth 1 args "" = "prod" ->
  initialized w = true ->
  terraform w ["workspace"; "select"; nth 1 args ""] = 0%nat ->
  Terraform.var_environment var = "" ->
  commands (fst (main w args))
  = [ ["workspace"; "select"; nth 1 args ""];
      [ "import"; "google_cloud_run_v2_service.smart_order_router";
        "projects/" +:+ tfvars_value "project_id" (tfvars w)
        +:+ "/locations/" +:+ tfvars_value "region" (tfvars w)
        +:+ "/services/" +:+ Terraform.service_name var (nth 1 args "") ] ].
Proof.
  intros Hc He Hi Hs Hv. rewrite (main_import w args Hc).
  assert (Terraform.service_name var (nth 1 args "")
          = "smart-order-router-" +:+ nth 1 args "") as ->.
  { unfold Terraform.service_name, Terraform.environment. rewrite Hv.
    destruct (decide ("" <> "")) as [H|_]; [contradiction|].
    destruct He as [-> | ->]; reflexivity. }
  unfold import, require_environment, check_terraform_init, require_dev_or_prod,
    run, import_id.
  rewrite Hi, Hs. clear Hs.
  destruct He as [E|E]; rewrite E; simpl;
    destruct (terraform w ("import" :: _)); reflexivity.
Qed.

(** X25 at [./workspace.sh import prod] with the guide's terraform.tfvars. *)
Lemma import_targets_the_managed_service_witness :
  let var := Terraform.mkVariables "" "registry/image" "latest" "latest"
               0 5 1 20 "INGRESS_TRAFFIC_ALL" "INGRESS_TRAFFIC_INTERNAL_ONLY"
               true false [] in
  commands (fst (main (sample_world None) ["import"; "prod"]))
  = [ ["workspace"; "select"; nth 1 ["import"; "prod"] ""];
      [ "import"; "google_cloud_run_v2_service.smart_order_router";
        "projects/" +:+ tfvars_value "project_id" (tfvars (sample_world None))
        +:+ "/locations/" +:+ tfvars_value "region" (tfvars (sample_world None))
        +:+ "/services/" +:+ Terraform.service_name var (nth 1 ["import"; "prod"] "") ] ].
Proof.
  apply (import_targets_the_managed_service (sample_world None) ["import"; "prod"]
           (Terraform.mkVariables "" "registry/image" "latest" "latest"
              0 5 1 20 "INGRESS_TRAFFIC_ALL" "INGRESS_TRAFFIC_INTERNAL_ONLY"
              true false [])).
  - reflexivity.
  - right. reflexivity.
  - reflexivity.
  - reflexivity.
  - reflexivity.
Defined.

(** ** Reading terraform.tfvars *)

#[local] Arguments String.append : simpl nomatch.

Lemma prefix_append (key rest : string) : String.prefix key (key +:+ rest) = true.
Proof.
  induction key as [|c key IH]; simpl; [destruct rest; reflexivity|].
  destruct (Ascii.ascii_dec c c); [exact IH | contradiction].
Qed.

Lemma filter_none (f : string -> bool) (l : list string) :
  forallb (fun x => negb (f x)) l = true -> List.filter f l = [].
Proof.
  induction l as [|x l IH]; simpl; [reflexivity|].
  intros [Hx Hl]%andb_prop. apply negb_true_iff in Hx. rewrite Hx. auto.
Qed.

Lemma after_delimiter_append (key rest : string) :
  free_of is_delimiter key = true ->
  after_delimiter (key +:+ rest) = after_delimiter rest.
Proof.
  induction key as [|c key IH]; simpl; [reflexivity|].
  unfold is_delimiter at 1. intros [Hc Hk]%andb_prop.
  apply negb_true_iff in Hc. rewrite Hc. auto.
Qed.

Lemma upto_delimiter_append (value rest : string) :
  free_of is_delimiter value = true ->
  upto_delimiter (value +:+ rest) = value +:+ upto_delimiter rest.
Proof.
  induction value as [|c value IH]; simpl; [reflexivity|].
  unfold is_delimiter at 1. intros [Hc Hv]%andb_prop.
  apply negb_true_iff in Hc. rewrite Hc, IH by exact Hv. reflexivity.
Qed.

Lemma tr_d_append (value rest : string) :
  free_of is_deleted value = true ->
  tr_d (value +:+ rest) = value +:+ tr_d rest.
Proof.
  induction value as [|c value IH]; simpl; [reflexivity|].
  unfold is_deleted at 1. intros [Hc Hv]%andb_prop.
  apply negb_true_iff in Hc. rewrite Hc, IH by exact Hv. reflexivity.
Qed.

Lemma append_empty (s : string) : s +:+ "" = s.
Proof. induction s as [|c s IH]; simpl; [reflexivity | f_equal; exact IH]. Qed.

Lemma read_assignment (key value : string) :
  free_of is_delimiter key = true ->
  free_of is_delimiter value = true ->
  free_of is_deleted value = true ->
  tr_d (cut_f2 (assignment key value)) = value.
Proof.
  intros Hk Hv Hd. unfold cut_f2, assignment.
  rewrite (after_delimiter_append key _ Hk). simpl.
  rewrite (upto_delimiter_append value _ Hv). simpl.
  rewrite (tr_d_append value _ Hd). simpl. apply append_empty.
Qed.

(** X26: what the script reads from terraform.tfvars. When exactly one line
    starts with the key and it has the form [key = value] with the value in
    double quotes, the value read is that value, provided the key holds no
    equals sign and the value holds no equals sign, space or double quote;
    when no line starts with the key, as for a region left to its default,
    the value read is empty. *)
Theorem tfvars_value_reads_assignment
    (key value : string) (before after : list string) :
  free_of is_delimiter key = true ->
  free_of is_delimiter value = true ->
  free_of is_deleted value = true ->
  forallb (fun line => negb (String.prefix key line)) (before ++ after) = true ->
  tfvars_value key (before ++ [assignment key value] ++ after) = value
  /\ tfvars_value key (before ++ after) = "".
Proof.
  intros Hk Hv Hd Hn. unfold tfvars_value. split.
  - rewrite forallb_app in Hn. apply andb_prop in Hn as [Hb Ha].
    rewrite !List.filter_app, (filter_none _ _ Hb), (filter_none _ _ Ha).
    simpl. unfold assignment at 1. rewrite prefix_append. simpl.
    rewrite (read_assignment key value Hk Hv Hd).
    destruct value; reflexivity.
  - rewrite (filter_none _ _ Hn). reflexivity.
Qed.

(** X26 at the guide's terraform.tfvars and the key project_id. *)
Lemma tfvars_value_reads_assignment_witness :
  tfvars_value "project_id"
    ([ "# Project (required)" ] ++ [ assignment "project_id" "your-gcp-project-id" ]
     ++ [ assignment "region" "asia-east1" ])
  = "your-gcp-project-id"
  /\ tfvars_value "project_id"
       ([ "# Project (required)" ] ++ [ assignment "region" "asia-east1" ])
     = "".
Proof.
  apply (tfvars_value_reads_assignment "project_id" "your-gcp-project-id"
           [ "# Project (required)" ] [ assignment "region" "asia-east1" ]);
    reflexivity.
Defined.

End WorkspaceFacts.
